(** * Wee: template-to-PDF renderer with hot reload

    A shallow embedding of [wee.py]: the context loader, the template
    cache of [TemplateRenderer], the render pipeline and the debouncing
    [FileWatcher], followed by the properties of the hot-reload subsystem.

    Conventions of the embedding.
    - Python objects that the program shares ([WeeConfig], the single
      [TemplateRenderer], the single [FileWatcher]) live in one heap record
      [Sys]; a method is a computation over that heap which either returns a
      value or raises, and keeps the heap changes made before a raise.
    - Wall-clock readings and modification times are integers of [Z].  The
      source holds them in floats; every test it makes on them is a
      comparison, possibly after one subtraction, and rounding is monotone,
      so the integer comparison decides the same way.
    - The libraries the script calls ([os.path], [json], Jinja2, WeasyPrint)
      are an interface [Collaborators]; every general theorem holds for any
      implementation of it. *)

From stdpp Require Import gmap strings list.

Local Open Scope Z_scope.
Local Open Scope string_scope.

(** ** JSON-like values: the context payload *)

#[local] Set Warnings "-register-all".

Inductive json : Type :=
| JNull
| JBool (b : bool)
| JInt (n : Z)
| JFloat (digits : Z) (scale : nat)   (* digits / 10^scale, e.g. 9.99 *)
| JStr (s : string)
| JArr (items : list json)
| JObj (fields : list (string * json)).

(** ** Exceptions the modelled code can meet *)

Inductive exn : Type :=
| OSError            (* missing file, directory opened as a file, ... *)
| TypeError          (* [os.path.basename(None)] *)
| JSONDecodeError
| TemplateNotFound
| TemplateError      (* failure while rendering a template *)
| ConversionError.   (* WeasyPrint failure *)

(** ** What the program lets the outside observe, in order *)

Inductive output : Type :=
| PrintRendering (template : option string)
| PrintTemplateRendered
| PrintHtmlSaved (path : string)
| PrintPdfGenerated (path : string)
| PrintOpened
| PrintCouldNotOpen
| PrintWarnContext          (* "Warning: Could not load context file" *)
| PrintChangeDetected (name : string)
| PrintContextReloaded
| PrintErrorReloading       (* "Error reloading context" *)
| PrintErrorRender          (* "Error during render" *)
| LoadTemplate (name : string)       (* [env.get_template]: disk read *)
| Popen (argv : list string).

(** ** The file system and the rest of the environment *)

Inductive node : Type :=
| File (data : string) (mtime : Z)
| Dir (mtime : Z).

Definition node_mtime (n : node) : Z :=
  match n with File _ t => t | Dir t => t end.

Record World : Type := mkWorld {
  fs : gmap string node;        (* keyed by absolute path *)
  clock : Z;                    (* [time.time() * 1000] *)
  today : string;               (* [datetime.now().strftime('%Y-%m-%d')] *)
  platform_system : string;     (* [platform.system()] *)
  popen_ok : bool;              (* whether [subprocess.Popen] succeeds *)
  log : list output
}.

(** ** The program's objects *)

Record WeeConfig : Type := mkConfig {
  template_file : option string;
  template_dir : option string;
  output_pdf : string;
  context_file : option string;
  context_data : json;
  watch_mode : bool;
  auto_open : bool;
  debounce_ms : Z
}.

(** A Jinja2 environment is its loader's search path; a template handle is
    the source text that was on disk when it was loaded. *)
Definition Environment : Type := list string.
Definition Template : Type := string.

Record TemplateRenderer : Type := mkRenderer {
  _env_cache : option Environment;
  _template_cache : gmap string (Template * Z)
}.

Record FileWatcher : Type := mkWatcher {
  last_render_time : Z;
  pending_render : bool
}.

Record Sys : Type := mkSys {
  config : WeeConfig;
  renderer : TemplateRenderer;
  watcher : FileWatcher;
  world : World
}.

(** [WeeConfig.__init__], [TemplateRenderer.__init__], [FileWatcher.__init__] *)
Definition WeeConfig_init : WeeConfig :=
  mkConfig None None "output.pdf" None (JObj []) false true 100.

Definition TemplateRenderer_init : TemplateRenderer := mkRenderer None ∅.

Definition FileWatcher_init : FileWatcher := mkWatcher 0 false.

(** Field updates. *)
Definition set_context_data (d : json) (c : WeeConfig) : WeeConfig :=
  mkConfig (template_file c) (template_dir c) (output_pdf c) (context_file c)
           d (watch_mode c) (auto_open c) (debounce_ms c).

Definition set_log (l : list output) (w : World) : World :=
  mkWorld (fs w) (clock w) (today w) (platform_system w) (popen_ok w) l.

Definition set_fs (f : gmap string node) (w : World) : World :=
  mkWorld f (clock w) (today w) (platform_system w) (popen_ok w) (log w).

Definition set_clock (t : Z) (w : World) : World :=
  mkWorld (fs w) t (today w) (platform_system w) (popen_ok w) (log w).

Definition with_config (c : WeeConfig) (s : Sys) : Sys :=
  mkSys c (renderer s) (watcher s) (world s).

Definition with_renderer (r : TemplateRenderer) (s : Sys) : Sys :=
  mkSys (config s) r (watcher s) (world s).

Definition with_watcher (fw : FileWatcher) (s : Sys) : Sys :=
  mkSys (config s) (renderer s) fw (world s).

Definition with_world (w : World) (s : Sys) : Sys :=
  mkSys (config s) (renderer s) (watcher s) w.

(** ** Computations over the heap that may raise *)

Inductive res (A : Type) : Type :=
| Ok (a : A)
| Raise (e : exn).
Arguments Ok {A} a.
Arguments Raise {A} e.

Definition M (A : Type) : Type := Sys → res A * Sys.

Definition ret {A} (a : A) : M A := λ s, (Ok a, s).

Definition raise {A} (e : exn) : M A := λ s, (Raise e, s).

Definition bind {A B} (m : M A) (k : A → M B) : M B :=
  λ s, match m s with
       | (Ok a, s') => k a s'
       | (Raise e, s') => (Raise e, s')
       end.

(** [try: m  except Exception: h] *)
Definition try_except {A} (m : M A) (h : exn → M A) : M A :=
  λ s, match m s with
       | (Ok a, s') => (Ok a, s')
       | (Raise e, s') => h e s'
       end.

Definition gets {A} (f : Sys → A) : M A := λ s, (Ok (f s), s).

Definition modify (f : Sys → Sys) : M unit := λ s, (Ok tt, f s).

Declare Scope wee_scope.
Delimit Scope wee_scope with wee.
Notation "'let*' x ':=' m 'in' k" := (bind m (λ x, k))
  (at level 10, x name, m at level 100, k at level 200) : wee_scope.
Notation "m ;; k" := (bind m (λ _, k))
  (at level 100, right associativity) : wee_scope.
Local Open Scope wee_scope.

(** [print(...)] and the instrumented collaborators append to the log. *)
Definition emit (o : output) : M unit :=
  modify (λ s, with_world (set_log (log (world s) ++ [o]) (world s)) s).

(** Python truthiness of an [Optional[str]]: [None] and [""] are false. *)
Definition truthy (o : option string) : bool :=
  match o with
  | Some s => negb (String.eqb s "")
  | None => false
  end.

(** [str.replace(old, new)] for a non-empty [old]: occurrences are taken
    left to right and do not overlap.  [skip] counts the characters of a
    match that are still to be consumed. *)
Fixpoint replace_from (old new : string) (skip : nat) (s : string) : string :=
  match s with
  | EmptyString => EmptyString
  | String c s' =>
      match skip with
      | S k => replace_from old new k s'
      | O =>
          if String.prefix old s
          then new ++ replace_from old new (Nat.pred (String.length old)) s'
          else String c (replace_from old new O s')
      end
  end.

Definition str_replace (old new s : string) : string :=
  replace_from old new O s.

(** [str.startswith] *)
Definition startswith (s pre : string) : bool := String.prefix pre s.

(** ** The libraries the script calls *)

Class Collaborators : Type := {
  (** [os.path] *)
  abspath : string → string;
  basename : string → string;
  dirname : string → string;
  path_join : string → string → string;
  (** [json.loads]; [None] stands for [JSONDecodeError] *)
  json_loads : string → option json;
  (** [Template.render]: the environment and the disk are arguments because
      a template may extend or include others, which are looked up when it
      is rendered; [None] stands for a Jinja2 error *)
  jinja_render : Environment → gmap string node → Template → json → option string;
  (** [HTML(string=...).write_pdf]: the bytes of the PDF, [None] on failure *)
  weasyprint : string → option string
}.

Section Wee.

Context `{Collaborators}.

(** *** File system calls

    The operating system resolves a path against the working directory;
    in the model that is [abspath], and the disk is keyed by the result. *)

Definition path_exists (w : World) (p : string) : bool :=
  bool_decide (is_Some (fs w !! abspath p)).

(** The modification time the disk holds for [p], if [p] exists. *)
Definition mtime_at (w : World) (p : string) : option Z :=
  match fs w !! abspath p with
  | Some n => Some (node_mtime n)
  | None => None
  end.

(** [os.path.getmtime] *)
Definition getmtime (p : string) : M Z :=
  λ s, match mtime_at (world s) p with
       | Some t => (Ok t, s)
       | None => (Raise OSError, s)
       end.

(** [open(p, 'r').read()] *)
Definition read_file (p : string) : M string :=
  λ s, match fs (world s) !! abspath p with
       | Some (File data _) => (Ok data, s)
       | _ => (Raise OSError, s)
       end.

(** [open(p, 'w').write(data)]: the file is created or truncated and takes
    the current time as modification time; a directory cannot be opened. *)
Definition write_file (p data : string) : M unit :=
  λ s, match fs (world s) !! abspath p with
       | Some (Dir _) => (Raise OSError, s)
       | _ => (Ok tt,
               with_world (set_fs (<[abspath p := File data (clock (world s))]>
                                     (fs (world s))) (world s)) s)
       end.

(** [json.load(f)] on an open file *)
Definition json_load (data : string) : M json :=
  match json_loads data with
  | Some j => ret j
  | None => raise JSONDecodeError
  end.

(** *** Jinja2 as the script uses it *)

(** [FileSystemLoader.get_source]: the first search directory that holds a
    file of that name. *)
Fixpoint find_template (f : gmap string node) (dirs : list string)
    (name : string) : option Template :=
  match dirs with
  | [] => None
  | d :: dirs' =>
      match f !! abspath (path_join d name) with
      | Some (File data _) => Some data
      | _ => find_template f dirs' name
      end
  end.

(** [env.get_template(name)] *)
Definition get_template (env : Environment) (name : string) : M Template :=
  emit (LoadTemplate name) ;;
  let* f := gets (λ s, fs (world s)) in
  match find_template f env name with
  | Some t => ret t
  | None => raise TemplateNotFound
  end.

(** [template.render(context)] *)
Definition template_render (env : Environment) (t : Template) (context : json)
    : M string :=
  let* f := gets (λ s, fs (world s)) in
  match jinja_render env f t context with
  | Some html => ret html
  | None => raise TemplateError
  end.

(** *** [TemplateRenderer] *)

Definition search_path (c : WeeConfig) : Environment :=
  let template_dirs :=
    match template_dir c with
    | Some d => if truthy (template_dir c) then [d] else []
    | None => []
    end in
  let template_dirs :=
    match template_file c with
    | Some tf =>
        if truthy (template_file c) then
          let template_file_dir := dirname (abspath tf) in
          if bool_decide (template_file_dir ∈@{list string} template_dirs) then template_dirs
          else (template_dirs ++ [template_file_dir])%list
        else template_dirs
    | None => template_dirs
    end in
  match template_dirs with
  | [] => ["."]
  | _ => template_dirs
  end.

Definition _get_environment : M Environment :=
  let* r := gets renderer in
  match _env_cache r with
  | Some env => ret env
  | None =>
      let* c := gets config in
      let env := search_path c in
      modify (λ s, with_renderer
                     (mkRenderer (Some env) (_template_cache (renderer s))) s) ;;
      ret env
  end.

(** The environment a call of [render_template] works with, and the heap
    once [_get_environment] has returned it. *)
Definition current_env (s : Sys) : Environment :=
  match _env_cache (renderer s) with
  | Some env => env
  | None => search_path (config s)
  end.

Definition with_env (s : Sys) : Sys :=
  with_renderer (mkRenderer (Some (current_env s))
                            (_template_cache (renderer s))) s.

Definition load_and_render (env : Environment) (template_name cache_key : string)
    (context : json) : M string :=
  let* template := get_template env template_name in
  let* rendered := template_render env template context in
  let* mtime := getmtime cache_key in
  modify (λ s, with_renderer
                 (mkRenderer (_env_cache (renderer s))
                    (<[cache_key := (template, mtime)]>
                       (_template_cache (renderer s)))) s) ;;
  ret rendered.

Definition render_template (template_path : option string) (context : json)
    : M string :=
  let* env := _get_environment in
  match template_path with
  | None => raise TypeError
  | Some template_path =>
      let template_name := basename template_path in
      let template_path_abs := abspath template_path in
      let cache_key := template_path_abs in
      let* cache := gets (λ s, _template_cache (renderer s)) in
      match cache !! cache_key with
      | Some (cached_template, cached_mtime) =>
          let* current_mtime := getmtime template_path_abs in
          if (current_mtime <=? cached_mtime)%Z
          then template_render env cached_template context
          else load_and_render env template_name cache_key context
      | None => load_and_render env template_name cache_key context
      end
  end.

(** *** The context loader *)

(** The default payload of [load_context]. *)
Definition default_context (date : string) : json :=
  JObj [("title", JStr "Wee Document");
        ("date", JStr date);
        ("author", JStr "Wee User");
        ("description", JStr "Document generated with Wee");
        ("items", JArr [JObj [("name", JStr "Sample Item");
                              ("quantity", JInt 1);
                              ("price", JFloat 999 2)]])].

Definition load_context : M json :=
  let* c := gets config in
  let* w := gets world in
  let default := ret (default_context (today w)) in
  match context_file c with
  | Some cf =>
      if truthy (context_file c) && path_exists w cf then
        try_except
          (let* data := read_file cf in json_load data)
          (λ _, emit PrintWarnContext ;; default)
      else default
  | None => default
  end.

(** *** PDF generation and the viewer *)

Definition html_to_pdf (html_content output_path : string) : M unit :=
  match weasyprint html_content with
  | Some pdf =>
      write_file output_path pdf ;;
      emit (PrintPdfGenerated output_path)
  | None => raise ConversionError
  end.

Definition popen (argv : list string) : M unit :=
  let* w := gets world in
  if popen_ok w then emit (Popen argv) else raise OSError.

Definition open_pdf (pdf_path : string) : M unit :=
  let* w := gets world in
  let system := platform_system w in
  try_except
    ((if String.eqb system "Darwin" then popen ["open"; pdf_path]
      else if String.eqb system "Windows"
           then popen ["cmd"; "/c"; "start"; "/B"; pdf_path]
           else popen ["xdg-open"; pdf_path]) ;;
     emit PrintOpened)
    (λ _, emit PrintCouldNotOpen).

(** *** The render pipeline *)

Definition html_output_path (c : WeeConfig) : string :=
  str_replace ".pdf" ".html" (output_pdf c).

Definition render_and_generate_pdf (auto_open : bool) : M unit :=
  let* c := gets config in
  emit (PrintRendering (template_file c)) ;;
  let* context := load_context in
  let* html_content := render_template (template_file c) context in
  emit PrintTemplateRendered ;;
  let html_output := html_output_path c in
  write_file html_output html_content ;;
  emit (PrintHtmlSaved html_output) ;;
  html_to_pdf html_content (output_pdf c) ;;
  if auto_open then open_pdf (output_pdf c) else ret tt.

(** *** [FileWatcher] *)

Record event : Type := mkEvent {
  is_directory : bool;
  src_path : string
}.

(** The test in [_trigger_render] and in [on_modified] that a path is the
    configured file [o]. *)
Definition is_configured (o : option string) (file_path : string) : bool :=
  match o with
  | Some f => truthy o && String.eqb file_path (abspath f)
  | None => false
  end.

Definition reload_context (cf : string) : M bool :=
  try_except
    (let* data := read_file cf in
     let* j := json_load data in
     modify (λ s, with_config (set_context_data j (config s)) s) ;;
     emit PrintContextReloaded ;;
     ret true)
    (λ _, emit PrintErrorReloading ;; ret false).

Definition _trigger_render (changed_file : string) : M unit :=
  emit (PrintChangeDetected (basename changed_file)) ;;
  let* c := gets config in
  let* proceed :=
    match context_file c with
    | Some cf =>
        if is_configured (context_file c) changed_file
        then reload_context cf else ret true
    | None => ret true
    end in
  if proceed
  then try_except (render_and_generate_pdf (auto_open c))
                  (λ _, emit PrintErrorRender)
  else ret tt.

(** The chain of tests that sets [should_render]. *)
Definition should_render (c : WeeConfig) (file_path : string) : bool :=
  if is_configured (template_file c) file_path then true
  else if is_configured (context_file c) file_path then true
  else match template_dir c with
       | Some d =>
           if truthy (template_dir c)
           then (if startswith file_path (abspath d) then true else false)
           else false
       | None => false
       end.

Definition on_modified (ev : event) : M unit :=
  if is_directory ev then ret tt
  else
    let file_path := src_path ev in
    let* c := gets config in
    if negb (should_render c file_path) then ret tt
    else
      let* current_time := gets (λ s, clock (world s)) in
      let* fw := gets watcher in
      if (current_time - last_render_time fw <? debounce_ms c)%Z then
        modify (λ s, with_watcher
                       (mkWatcher (last_render_time (watcher s)) true) s)
      else
        modify (λ s, with_watcher
                       (mkWatcher current_time (pending_render (watcher s))) s) ;;
        _trigger_render file_path.

(** *** Event delivery in watch mode *)

(** Between two events the outside world moves: the clock advances and
    files are edited.  A delivery is such a move followed by one call of
    [on_modified]; the move cannot rewrite what the program has printed. *)
Record delivery : Type := mkDelivery {
  d_time : Z;
  d_move : World → World;
  d_event : event
}.

Definition arrive (d : delivery) (s : Sys) : Sys :=
  with_world (set_log (log (world s)) (set_clock (d_time d) (d_move d (world s)))) s.

Definition deliver (s : Sys) (d : delivery) : Sys :=
  snd (on_modified (d_event d) (arrive d s)).

Definition run (ds : list delivery) (s : Sys) : Sys := foldl deliver s ds.

(** *** Observations on the log *)

Definition is_dispatch (o : output) : bool :=
  match o with PrintChangeDetected _ => true | _ => false end.

Definition is_render (o : output) : bool :=
  match o with PrintRendering _ => true | _ => false end.

Definition is_load (o : output) : bool :=
  match o with LoadTemplate _ => true | _ => false end.

Fixpoint count (p : output → bool) (l : list output) : nat :=
  match l with
  | [] => O
  | o :: l' => ((if p o then 1 else 0) + count p l')%nat
  end.

(** Renders dispatched by the watcher, runs of the pipeline and template
    loads so far. *)
Definition dispatches (s : Sys) : nat := count is_dispatch (log (world s)).
Definition renders (s : Sys) : nat := count is_render (log (world s)).
Definition loads (s : Sys) : nat := count is_load (log (world s)).

(** An event that passes the filter of [on_modified]. *)
Definition relevant (c : WeeConfig) (ev : event) : bool :=
  negb (is_directory ev) && should_render c (src_path ev).

End Wee.

(** ** A concrete reading of the collaborators

    For the worked examples: paths are absolute, normalised and not in the
    root directory, so that [abspath] is the identity and joining is
    concatenation with a slash; templates are plain text without Jinja2
    syntax, which Jinja2 renders to itself; the PDF bytes are a stand-in. *)

Module Demo.

Fixpoint last_component (acc s : string) : string :=
  match s with
  | EmptyString => acc
  | String c s' =>
      if Ascii.eqb c (Ascii.ascii_of_nat 47) then last_component "" s'
      else last_component (acc ++ String c "") s'
  end.

Definition demo_basename (p : string) : string := last_component "" p.

Definition demo_dirname (p : string) : string :=
  String.substring 0 (String.length p - String.length (demo_basename p) - 1)%nat p.

Definition demo_json_loads (text : string) : option json :=
  if String.eqb text "null" then Some JNull
  else if String.eqb text "true" then Some (JBool true)
  else if String.eqb text "false" then Some (JBool false)
  else if String.eqb text "{}" then Some (JObj [])
  else if String.eqb text "[]" then Some (JArr [])
  else if String.eqb text "42" then Some (JInt 42)
  else None.

Definition posix : Collaborators := {|
  abspath p := p;
  basename := demo_basename;
  dirname := demo_dirname;
  path_join d name := d ++ "/" ++ name;
  json_loads := demo_json_loads;
  jinja_render _ _ t _ := Some t;
  weasyprint html := Some ("%PDF " ++ html)
|}.

(** A small site in [/srv]: the template, the context file, a template
    directory [/srv/tpl], and next to it an unrelated directory whose name
    begins the same way. *)
Definition page : string := "/srv/page.html".
Definition data_json : string := "/srv/data.json".
Definition tpl : string := "/srv/tpl".
Definition stray : string := "/srv/tpl_old/notes.txt".

Definition disk : gmap string node :=
  <[page := File "<p>Hi</p>" 100]>
    (<[data_json := File "{}" 100]>
       (<[stray := File "todo" 100]> ∅)).

Definition cfg : WeeConfig :=
  mkConfig (Some page) (Some tpl) "/srv/out.pdf" (Some data_json)
           (JObj []) true false 100.

Definition world0 : World :=
  mkWorld disk 1700000000000 "2026-01-01" "Linux" true [].

(** The heap when [main] has built its objects, before the first render. *)
Definition start : Sys :=
  mkSys cfg TemplateRenderer_init FileWatcher_init world0.

(** The time of the first event, half a second into watch mode. *)
Definition t0 : Z := 1700000000500.

(** A modification event for a file at time [t], the world otherwise
    unchanged. *)
Definition touch (t : Z) (path : string) : delivery :=
  mkDelivery t (λ w, w) (mkEvent false path).

(** The context file is overwritten with text that is not JSON, and the
    event for it arrives at time [t]. *)
Definition break_context (t : Z) : delivery :=
  mkDelivery t
    (λ w, set_fs (<[data_json := File "{oops" t]> (fs w)) w)
    (mkEvent false data_json).

(** The renderer holds a handle for the page, loaded when the file had
    other contents but the same modification time. *)
Definition cached : Sys :=
  with_renderer
    (mkRenderer None (<[page := ("<p>Old</p>", 100)]> ∅)) start.

(** The page was modified after the handle was loaded. *)
Definition stale : Sys :=
  with_renderer
    (mkRenderer None (<[page := ("<p>Old</p>", 99)]> ∅)) start.

(** [--debounce 2000000000000]: an interval longer than the time since the
    epoch. *)
Definition patient : Sys :=
  mkSys (mkConfig (Some page) (Some tpl) "/srv/out.pdf" (Some data_json)
                  (JObj []) true false 2000000000000)
        TemplateRenderer_init FileWatcher_init world0.

(** [-o /srv/report.PDF]: an output path without the substring [.pdf]. *)
Definition shouting : Sys :=
  mkSys (mkConfig (Some page) (Some tpl) "/srv/report.PDF" (Some data_json)
                  (JObj []) true false 100)
        TemplateRenderer_init FileWatcher_init world0.

End Demo.

(** ** Auxiliary observations *)

(** The heap after the loader has printed its warning. *)
Definition warned (s : Sys) : Sys :=
  with_world (set_log (log (world s) ++ [PrintWarnContext]) (world s)) s.

(** The keys of a JSON object, in order. *)
Definition keys (j : json) : list string :=
  match j with
  | JObj fields => map fst fields
  | _ => []
  end.

(** The context file cannot be loaded: it is missing, is not a readable
    file, or its text does not parse. *)
Definition context_unloadable `{Collaborators} (w : World) (cf : string) : Prop :=
  match fs w !! abspath cf with
  | Some (File data _) => json_loads data = None
  | _ => True
  end.

(** The spec's "nested under a directory", read on path strings: the path
    continues the directory's path with a separator. *)
Definition nested_under (dir p : string) : Prop :=
  ∃ rest, p = dir ++ "/" ++ rest.

(** The heap with another in-memory context payload. *)
Definition put_context_data (d : json) (s : Sys) : Sys :=
  with_config (set_context_data d (config s)) s.

(** A computation is blind to the in-memory context payload when running
    it under another payload gives the same result and the same heap, up
    to that payload. *)
Definition blind {A} (m : M A) : Prop :=
  ∀ d s, m (put_context_data d s) = (fst (m s), put_context_data d (snd (m s))).

(** ** What a computation leaves alone *)

(** [frame s s']: from [s] to [s'] the watcher is untouched, the
    configuration changed at most in its context payload, and the log only
    grew, by entries that are not dispatches. *)
Record frame (s s' : Sys) : Prop := mkFrame {
  frame_watcher : watcher s' = watcher s;
  frame_config : ∃ d, config s' = set_context_data d (config s);
  frame_log : ∃ l, log (world s') = (log (world s) ++ l)%list ∧
                   count is_dispatch l = O
}.

Definition keeps {A} (m : M A) : Prop := ∀ s, frame s (snd (m s)).

(** ** Further parts of the script *)

Section Script.

Context `{Collaborators}.

(** *** [render_and_generate_pdf] in two stages

    The first stage is the function up to the call of [render_template];
    the second is the rest, which writes the two files and opens the
    viewer. *)

Definition markup_stage : M string :=
  let* c := gets config in
  emit (PrintRendering (template_file c)) ;;
  let* context := load_context in
  render_template (template_file c) context.

Definition output_stage (c : WeeConfig) (html_content : string)
    (auto_open : bool) : M unit :=
  emit PrintTemplateRendered ;;
  let html_output := html_output_path c in
  write_file html_output html_content ;;
  emit (PrintHtmlSaved html_output) ;;
  html_to_pdf html_content (output_pdf c) ;;
  if auto_open then open_pdf (output_pdf c) else ret tt.

(** The command [open_pdf] spawns on each platform. *)
Definition viewer_argv (system pdf_path : string) : list string :=
  if String.eqb system "Darwin" then ["open"; pdf_path]
  else if String.eqb system "Windows"
       then ["cmd"; "/c"; "start"; "/B"; pdf_path]
       else ["xdg-open"; pdf_path].

(** *** [FileWatcher.start_watching]: the directories scheduled *)

Definition watch_paths (c : WeeConfig) : gset string :=
  let watch_paths : gset string := ∅ in
  let watch_paths :=
    match template_file c with
    | Some tf =>
        if truthy (template_file c)
        then watch_paths ∪ {[dirname (abspath tf)]} else watch_paths
    | None => watch_paths
    end in
  let watch_paths :=
    match template_dir c with
    | Some td =>
        if truthy (template_dir c)
        then watch_paths ∪ {[abspath td]} else watch_paths
    | None => watch_paths
    end in
  match context_file c with
  | Some cf =>
      if truthy (context_file c)
      then watch_paths ∪ {[dirname (abspath cf)]} else watch_paths
  | None => watch_paths
  end.

(** *** The validation at the start of [main] *)






(** *** Further observations *)

(** The heap after the loader has been asked for [name]. *)
Definition asked (name : string) (s : Sys) : Sys :=
  with_world (set_log (log (world s) ++ [LoadTemplate name]) (world s)) s.

(** The cache holds a handle for [key] that the disk does not outdate. *)
Definition cache_fresh (s : Sys) (key : string) : Prop :=
  ∃ t cached cur,
    _template_cache (renderer s) !! key = Some (t, cached) ∧
    mtime_at (world s) key = Some cur ∧
    (cur ≤ cached)%Z.


End Script.

(** ** More of the demo site *)

Module Tour.

Import Demo.


(** The template directory holds a file named like the template. *)
Definition shadowed : Sys :=
  with_world
    (set_fs (<["/srv/tpl/page.html" := File "<p>Shadow</p>" 50]> disk) world0)
    start.

(** The renderer holds a handle for the page, and the page is gone. *)
Definition deleted : Sys :=
  with_world (set_fs (delete page disk) world0) cached.

(** Nothing is on disk. *)
Definition bare : Sys := with_world (set_fs ∅ world0) start.

(** [-o /srv/report]: an output path without a dot. *)
Definition dotless : Sys :=
  mkSys (mkConfig (Some page) (Some tpl) "/srv/report" (Some data_json)
                  (JObj []) true false 100)
        TemplateRenderer_init FileWatcher_init world0.

(** No context file configured. *)
Definition plain : Sys :=
  mkSys (mkConfig (Some page) None "/srv/out.pdf" None
                  (JObj []) false false 100)
        TemplateRenderer_init FileWatcher_init world0.


(** The context file is overwritten with [null], and the event for it
    arrives at time [t]. *)
Definition null_context (t : Z) : delivery :=
  mkDelivery t
    (λ w, set_fs (<[data_json := File "null" t]> (fs w)) w)
    (mkEvent false data_json).

End Tour.

(** * Properties *)

Local Open Scope Z_scope.

Section Basics.

Context `{Collaborators}.

Lemma count_app p l1 l2 : count p (l1 ++ l2) = (count p l1 + count p l2)%nat.
Proof. induction l1 as [|o l1 IH]; simpl; [done | rewrite IH; lia]. Qed.

Lemma relevant_spec c ev :
  relevant c ev = true ↔
  is_directory ev = false ∧ should_render c (src_path ev) = true.
Proof.
  unfold relevant. rewrite andb_true_iff, negb_true_iff. tauto.
Qed.

(** The four ways through [on_modified]. *)

Lemma on_modified_directory ev s :
  is_directory ev = true → on_modified ev s = (Ok tt, s).
Proof. intros Hd. unfold on_modified. by rewrite Hd. Qed.

Lemma on_modified_filtered ev s :
  should_render (config s) (src_path ev) = false →
  on_modified ev s = (Ok tt, s).
Proof.
  intros Hf. unfold on_modified. destruct (is_directory ev); [done|].
  unfold bind, gets. simpl. by rewrite Hf.
Qed.

Lemma on_modified_irrelevant ev s :
  relevant (config s) ev = false → on_modified ev s = (Ok tt, s).
Proof.
  unfold relevant. intros [Hd | Hf]%andb_false_iff.
  - apply on_modified_directory. by destruct (is_directory ev).
  - by apply on_modified_filtered.
Qed.

Lemma on_modified_coalesced ev s :
  relevant (config s) ev = true →
  clock (world s) - last_render_time (watcher s) < debounce_ms (config s) →
  on_modified ev s =
    (Ok tt, with_watcher (mkWatcher (last_render_time (watcher s)) true) s).
Proof.
  intros [Hd Hr]%relevant_spec Hlt. unfold on_modified. rewrite Hd.
  unfold bind, gets, modify. simpl. rewrite Hr. simpl.
  by rewrite (proj2 (Z.ltb_lt _ _) Hlt).
Qed.

Lemma on_modified_dispatched ev s :
  relevant (config s) ev = true →
  debounce_ms (config s) ≤ clock (world s) - last_render_time (watcher s) →
  on_modified ev s =
    _trigger_render (src_path ev)
      (with_watcher
         (mkWatcher (clock (world s)) (pending_render (watcher s))) s).
Proof.
  intros [Hd Hr]%relevant_spec Hge. unfold on_modified. rewrite Hd.
  unfold bind, gets, modify. simpl. rewrite Hr. simpl.
  by rewrite (proj2 (Z.ltb_ge _ _) Hge).
Qed.

End Basics.

(** ** The frame of the render pipeline *)

Section Frame.

Context `{Collaborators}.

Lemma set_context_data_id c : set_context_data (context_data c) c = c.
Proof. by destruct c. Qed.

Lemma set_context_data_twice d d' c :
  set_context_data d (set_context_data d' c) = set_context_data d c.
Proof. done. Qed.

Lemma frame_refl s : frame s s.
Proof.
  split; [done | | ].
  - exists (context_data (config s)). by rewrite set_context_data_id.
  - exists []. by rewrite app_nil_r.
Qed.

Lemma frame_trans s1 s2 s3 : frame s1 s2 → frame s2 s3 → frame s1 s3.
Proof.
  intros [Hw1 [d1 Hc1] (l1 & Hl1 & Hn1)] [Hw2 [d2 Hc2] (l2 & Hl2 & Hn2)].
  split.
  - congruence.
  - exists d2. by rewrite Hc2, Hc1.
  - exists (l1 ++ l2)%list. split.
    + by rewrite Hl2, Hl1, app_assoc.
    + rewrite count_app. lia.
Qed.

Lemma keeps_ret {A} (a : A) : keeps (ret a).
Proof. intros s. apply frame_refl. Qed.

Lemma keeps_raise {A} e : keeps (@raise A e).
Proof. intros s. apply frame_refl. Qed.

Lemma keeps_gets {A} (f : Sys → A) : keeps (gets f).
Proof. intros s. apply frame_refl. Qed.

Lemma keeps_bind {A B} (m : M A) (k : A → M B) :
  keeps m → (∀ a, keeps (k a)) → keeps (bind m k).
Proof.
  intros Hm Hk s. unfold bind. specialize (Hm s).
  destruct (m s) as [[a|e] s']; simpl in *; [|done].
  eapply frame_trans; [exact Hm | apply Hk].
Qed.

Lemma keeps_try_except {A} (m : M A) (h : exn → M A) :
  keeps m → (∀ e, keeps (h e)) → keeps (try_except m h).
Proof.
  intros Hm Hh s. unfold try_except. specialize (Hm s).
  destruct (m s) as [[a|e] s']; simpl in *; [done|].
  eapply frame_trans; [exact Hm | apply Hh].
Qed.

Lemma keeps_emit o : is_dispatch o = false → keeps (emit o).
Proof.
  intros Ho s. split; simpl; [done | | ].
  - exists (context_data (config s)). by rewrite set_context_data_id.
  - exists [o]. simpl. by rewrite Ho.
Qed.

Lemma keeps_getmtime p : keeps (getmtime p).
Proof. intros s. unfold getmtime. case_match; apply frame_refl. Qed.

Lemma keeps_read_file p : keeps (read_file p).
Proof. intros s. unfold read_file. repeat case_match; apply frame_refl. Qed.

Lemma keeps_write_file p data : keeps (write_file p data).
Proof.
  intros s. unfold write_file.
  repeat case_match; try apply frame_refl;
    (split; simpl; [done | | ];
     [ exists (context_data (config s)); by rewrite set_context_data_id
     | exists []; by rewrite app_nil_r ]).
Qed.

Lemma keeps_json_load data : keeps (json_load data).
Proof. unfold json_load. case_match; [apply keeps_ret | apply keeps_raise]. Qed.

Lemma keeps_set_renderer (f : Sys → TemplateRenderer) :
  keeps (modify (λ s, with_renderer (f s) s)).
Proof.
  intros s. split; simpl; [done | | ].
  - exists (context_data (config s)). by rewrite set_context_data_id.
  - exists []. by rewrite app_nil_r.
Qed.

Lemma keeps_set_context_data (j : json) :
  keeps (modify (λ s, with_config (set_context_data j (config s)) s)).
Proof.
  intros s. split; simpl; [done | by exists j | ].
  exists []. by rewrite app_nil_r.
Qed.

(** The compound computations are handled by following their syntax. *)
Ltac keeps_step :=
  first
    [ apply keeps_ret | apply keeps_raise | apply keeps_gets
    | apply keeps_emit; reflexivity
    | apply keeps_getmtime | apply keeps_read_file | apply keeps_write_file
    | apply keeps_json_load
    | apply keeps_set_renderer | apply keeps_set_context_data
    | assumption
    | apply keeps_bind; [ | intros ? ]
    | apply keeps_try_except; [ | intros ? ]
    | progress case_match ].

Ltac keeps_tac := repeat keeps_step.

Lemma keeps_get_template env name : keeps (get_template env name).
Proof. unfold get_template. keeps_tac. Qed.

Lemma keeps_template_render env t context :
  keeps (template_render env t context).
Proof. unfold template_render. keeps_tac. Qed.

Lemma keeps_get_environment : keeps _get_environment.
Proof. unfold _get_environment. keeps_tac. Qed.

Lemma keeps_load_and_render env name key context :
  keeps (load_and_render env name key context).
Proof.
  pose proof keeps_get_template. pose proof keeps_template_render.
  unfold load_and_render. keeps_tac; auto.
Qed.

Lemma keeps_render_template path context :
  keeps (render_template path context).
Proof.
  pose proof keeps_get_environment.
  unfold render_template. keeps_tac;
    auto using keeps_template_render, keeps_load_and_render.
Qed.

Lemma keeps_load_context : keeps load_context.
Proof. unfold load_context. keeps_tac. Qed.

Lemma keeps_html_to_pdf html path : keeps (html_to_pdf html path).
Proof. unfold html_to_pdf. keeps_tac. Qed.

Lemma keeps_popen argv : keeps (popen argv).
Proof. unfold popen. keeps_tac. Qed.

Lemma keeps_open_pdf path : keeps (open_pdf path).
Proof. unfold open_pdf. keeps_tac; apply keeps_popen. Qed.

Lemma keeps_render_and_generate_pdf ao : keeps (render_and_generate_pdf ao).
Proof.
  pose proof keeps_load_context.
  unfold render_and_generate_pdf. keeps_tac;
    auto using keeps_render_template, keeps_html_to_pdf, keeps_open_pdf.
Qed.

Lemma keeps_reload_context cf : keeps (reload_context cf).
Proof. unfold reload_context. keeps_tac. Qed.

End Frame.

(** ** One delivery *)

Section Delivery.

Context `{Collaborators}.

Lemma relevant_set_context_data d c ev :
  relevant (set_context_data d c) ev = relevant c ev.
Proof. reflexivity. Qed.

(** A dispatch prints its banner once and then only frames. *)
Lemma trigger_render_frame changed s :
  let s' := snd (_trigger_render changed s) in
  watcher s' = watcher s ∧
  (∃ d, config s' = set_context_data d (config s)) ∧
  ∃ l, log (world s') =
         (log (world s) ++ PrintChangeDetected (basename changed) :: l)%list ∧
       count is_dispatch l = O.
Proof.
  unfold _trigger_render.
  set (rest := bind (gets config) _).
  assert (Hrest : keeps rest).
  { unfold rest. apply keeps_bind; [apply keeps_gets | intros c].
    apply keeps_bind.
    - repeat case_match; auto using keeps_ret, keeps_reload_context.
    - intros [|]; [|apply keeps_ret].
      apply keeps_try_except; [apply keeps_render_and_generate_pdf|].
      intros _. by apply keeps_emit. }
  clearbody rest.
  change (bind (emit (PrintChangeDetected (basename changed))) (λ _, rest) s)
    with (rest (with_world
                  (set_log (log (world s) ++
                              [PrintChangeDetected (basename changed)])
                     (world s)) s)).
  destruct (Hrest (with_world
              (set_log (log (world s) ++ [PrintChangeDetected (basename changed)])
                 (world s)) s)) as [Hw Hc (l & Hl & Hn)].
  simpl in *. repeat split; [done | done |].
  exists l. split; [|done]. by rewrite Hl, <- app_assoc.
Qed.

Lemma reload_context_returns cf s : ∃ b, fst (reload_context cf s) = Ok b.
Proof.
  unfold reload_context, try_except, bind, emit, modify, ret.
  destruct (read_file cf s) as [[data|e] s1]; simpl; [|eauto].
  destruct (json_load data s1) as [[j|e] s2]; simpl; eauto.
Qed.

(** Whatever fails inside a dispatch is caught: the handler returns. *)
Lemma trigger_render_returns changed s :
  fst (_trigger_render changed s) = Ok tt.
Proof.
  unfold _trigger_render.
  change (bind (emit (PrintChangeDetected (basename changed))) ?k s)
    with (k tt (with_world
                  (set_log (log (world s) ++
                              [PrintChangeDetected (basename changed)])
                     (world s)) s)).
  cbv beta. set (s1 := with_world _ s).
  unfold bind at 1. unfold gets at 1. cbv beta iota.
  unfold bind at 1.
  assert (Hp : ∃ b, fst (match context_file (config s1) with
                         | Some cf =>
                             if is_configured (context_file (config s1)) changed
                             then reload_context cf else ret true
                         | None => ret true
                         end s1) = Ok b).
  { repeat case_match; eauto using reload_context_returns. }
  destruct Hp as [b Hb].
  match type of Hb with fst ?m = _ => destruct m as [r s2] end.
  simpl in Hb. subst r. destruct b; [|done].
  unfold try_except, emit, modify.
  destruct (render_and_generate_pdf _ s2) as [[[]|e] s3]; done.
Qed.

Lemma deliver_irrelevant s d :
  relevant (config s) (d_event d) = false → deliver s d = arrive d s.
Proof.
  intros Hr. unfold deliver. by rewrite on_modified_irrelevant.
Qed.

Lemma deliver_coalesced s d :
  relevant (config s) (d_event d) = true →
  d_time d - last_render_time (watcher s) < debounce_ms (config s) →
  deliver s d =
    with_watcher (mkWatcher (last_render_time (watcher s)) true) (arrive d s).
Proof.
  intros Hr Hlt. unfold deliver. by rewrite on_modified_coalesced.
Qed.

Lemma deliver_dispatched s d :
  relevant (config s) (d_event d) = true →
  debounce_ms (config s) ≤ d_time d - last_render_time (watcher s) →
  watcher (deliver s d) = mkWatcher (d_time d) (pending_render (watcher s)) ∧
  (∃ j, config (deliver s d) = set_context_data j (config s)) ∧
  dispatches (deliver s d) = S (dispatches s).
Proof.
  intros Hr Hge. unfold deliver. rewrite on_modified_dispatched by done.
  match goal with |- context [_trigger_render ?p ?s0] =>
    destruct (trigger_render_frame p s0) as (Hw & Hc & l & Hl & Hn) end.
  simpl in *. repeat split; [done | done |].
  unfold dispatches. rewrite Hl, count_app. simpl. rewrite Hn. lia.
Qed.

End Delivery.

(** ** The template cache *)

Section RenderCache.

Context `{Collaborators}.

Lemma get_environment_eq s :
  _get_environment s = (Ok (current_env s), with_env s).
Proof.
  unfold _get_environment, current_env, with_env, bind, gets, modify, ret.
  destruct s as [c [[env|] tc] fw w]; simpl; [|done].
  done.
Qed.

Lemma template_render_eq env t context s :
  template_render env t context s =
    (match jinja_render env (fs (world s)) t context with
     | Some html => Ok html
     | None => Raise TemplateError
     end, s).
Proof.
  unfold template_render, bind, gets. simpl.
  by destruct (jinja_render env (fs (world s)) t context).
Qed.

(** The reload path, when the loader finds the template, the engine renders
    it and the file can be stat'ed. *)
Lemma load_and_render_found env name key context s t html cur :
  find_template (fs (world s)) env name = Some t →
  jinja_render env (fs (world s)) t context = Some html →
  mtime_at (world s) key = Some cur →
  load_and_render env name key context s =
    (Ok html,
     with_renderer
       (mkRenderer (_env_cache (renderer s))
                   (<[key := (t, cur)]> (_template_cache (renderer s))))
       (with_world (set_log (log (world s) ++ [LoadTemplate name]) (world s)) s)).
Proof.
  intros Hf Hr Hm.
  unfold load_and_render, get_template, template_render, getmtime,
    bind, emit, modify, gets, ret, raise. simpl.
  rewrite Hf. simpl. rewrite Hr. simpl.
  unfold mtime_at in *. simpl. destruct (fs (world s) !! abspath key); [|done].
  by simplify_eq.
Qed.

(** Whatever happens on the reload path, the loader is asked first. *)
Lemma load_and_render_loads env name key context s :
  ∃ l, log (world (snd (load_and_render env name key context s))) =
       (log (world s) ++ LoadTemplate name :: l)%list ∧ count is_load l = O.
Proof.
  unfold load_and_render, get_template, template_render, getmtime,
    bind, emit, modify, gets, ret, raise. simpl.
  exists []. repeat case_match; simplify_eq/=; done.
Qed.

Lemma render_template_unfold path context s :
  render_template (Some path) context s =
    match _template_cache (renderer s) !! abspath path with
    | Some (t, cached) =>
        match mtime_at (world s) (abspath path) with
        | Some cur =>
            if cur <=? cached
            then template_render (current_env s) t context (with_env s)
            else load_and_render (current_env s) (basename path)
                   (abspath path) context (with_env s)
        | None => (Raise OSError, with_env s)
        end
    | None =>
        load_and_render (current_env s) (basename path) (abspath path)
          context (with_env s)
    end.
Proof.
  unfold render_template. unfold bind at 1. rewrite get_environment_eq.
  unfold bind at 1. unfold gets at 1. cbv beta iota.
  change (_template_cache (renderer (with_env s)))
    with (_template_cache (renderer s)).
  destruct (_template_cache (renderer s) !! abspath path) as [[t cached]|];
    [|done].
  unfold bind at 1, getmtime at 1.
  change (world (with_env s)) with (world s).
  destruct (mtime_at (world s) (abspath path)) as [cur|]; [|done].
  by destruct (cur <=? cached).
Qed.

(** C1.  [render_template] on a template path and a context.  If the cache
    holds an entry for the absolute path and the modification time now on
    disk is at most the stored one (equal counts as fresh), the loader is
    not asked again, the cache and the disk are as before, and the result is
    the cached handle rendered against the given context.  Otherwise (no
    entry, or a later modification time) the loader is asked once, and when
    it finds the template and the engine renders it, the call returns that
    rendering and the cache holds the loaded handle with the current
    modification time.  Nothing but the two timestamps decides between the
    two cases. *)
Theorem C1_render_template_cache (path : string) (context : json) (s : Sys) :
  let key := abspath path in
  let env := current_env s in
  let out := render_template (Some path) context s in
  (∀ t cached cur,
     _template_cache (renderer s) !! key = Some (t, cached) →
     mtime_at (world s) key = Some cur →
     cur ≤ cached →
     fst out = match jinja_render env (fs (world s)) t context with
               | Some html => Ok html
               | None => Raise TemplateError
               end ∧
     loads (snd out) = loads s ∧
     world (snd out) = world s ∧
     _template_cache (renderer (snd out)) = _template_cache (renderer s))
  ∧
  ((_template_cache (renderer s) !! key = None ∨
    ∃ t cached cur,
      _template_cache (renderer s) !! key = Some (t, cached) ∧
      mtime_at (world s) key = Some cur ∧ cached < cur) →
   loads (snd out) = S (loads s) ∧
   ∀ t html cur,
     find_template (fs (world s)) env (basename path) = Some t →
     jinja_render env (fs (world s)) t context = Some html →
     mtime_at (world s) key = Some cur →
     fst out = Ok html ∧
     _template_cache (renderer (snd out)) !! key = Some (t, cur)).
Proof.
  intros key env out. subst out. rewrite render_template_unfold.
  fold key. fold env. split.
  - intros t cached cur Hc Hm Hle. rewrite Hc, Hm.
    rewrite (proj2 (Z.leb_le _ _) Hle), template_render_eq. simpl. done.
  - intros Hmiss.
    assert (Hgo : match _template_cache (renderer s) !! key with
                  | Some (t, cached) =>
                      match mtime_at (world s) key with
                      | Some cur =>
                          if cur <=? cached
                          then template_render env t context (with_env s)
                          else load_and_render env (basename path) key context
                                 (with_env s)
                      | None => (Raise OSError, with_env s)
                      end
                  | None =>
                      load_and_render env (basename path) key context (with_env s)
                  end
                  = load_and_render env (basename path) key context (with_env s)).
    { destruct Hmiss as [-> | (t & cached & cur & -> & -> & Hlt)]; [done|].
      by rewrite (proj2 (Z.leb_gt _ _) Hlt). }
    rewrite Hgo. split.
    + destruct (load_and_render_loads env (basename path) key context (with_env s))
        as (l & Hl & Hn).
      unfold loads. rewrite Hl, count_app. simpl in *. rewrite Hn. lia.
    + intros t html cur Hf Hr Hm.
      rewrite (load_and_render_found env (basename path) key context
                 (with_env s) t html cur) by done.
      simpl. split; [done|]. apply lookup_insert_eq.
Qed.

End RenderCache.

(** ** The context loader *)

Section ContextLoader.

Context `{Collaborators}.

(** C6.  [load_context] with a context file configured.  When the file
    exists and parses, its contents are returned and nothing is printed.
    When it is missing, the default payload is returned.  When it exists
    but cannot be read or does not parse, the warning is printed and the
    default payload is returned.  In no case does the loader raise, and the
    default payload is an object with a title, a date stamp, an author, a
    description and a list holding one sample line item. *)
Theorem C6_load_context (s : Sys) (cf : string) :
  context_file (config s) = Some cf →
  cf ≠ "" →
  let default := default_context (today (world s)) in
  (∀ data t j,
     fs (world s) !! abspath cf = Some (File data t) →
     json_loads data = Some j →
     load_context s = (Ok j, s)) ∧
  (fs (world s) !! abspath cf = None →
     load_context s = (Ok default, s)) ∧
  (∀ data t,
     fs (world s) !! abspath cf = Some (File data t) →
     json_loads data = None →
     load_context s = (Ok default, warned s)) ∧
  (∀ t,
     fs (world s) !! abspath cf = Some (Dir t) →
     load_context s = (Ok default, warned s)) ∧
  (∃ j s', load_context s = (Ok j, s')) ∧
  keys default = ["title"; "date"; "author"; "description"; "items"] ∧
  (∃ item, JArr [item] ∈ map snd
             (match default with JObj fields => fields | _ => [] end) ∧
           keys item = ["name"; "quantity"; "price"]).
Proof.
  intros Hcf Hne default.
  assert (Ht : truthy (Some cf) = true).
  { simpl. apply negb_true_iff, String.eqb_neq. done. }
  assert (Hgo : load_context s =
            if path_exists (world s) cf
            then try_except
                   (bind (read_file cf) json_load)
                   (λ _, bind (emit PrintWarnContext) (λ _, ret default)) s
            else (Ok default, s)).
  { unfold load_context. unfold bind at 1. unfold gets at 1. cbv beta iota.
    unfold bind at 1. unfold gets at 1. cbv beta iota.
    rewrite Hcf, Ht. simpl. by destruct (path_exists (world s) cf). }
  assert (Hfile : ∀ data t, fs (world s) !! abspath cf = Some (File data t) →
            load_context s =
              match json_loads data with
              | Some j => (Ok j, s)
              | None => (Ok default, warned s)
              end).
  { intros data t Hfs. rewrite Hgo. unfold path_exists.
    rewrite bool_decide_eq_true_2 by (rewrite Hfs; eauto).
    unfold try_except, bind, read_file, json_load. rewrite Hfs.
    by destruct (json_loads data). }
  assert (Hdir : ∀ t, fs (world s) !! abspath cf = Some (Dir t) →
            load_context s = (Ok default, warned s)).
  { intros t Hfs. rewrite Hgo. unfold path_exists.
    rewrite bool_decide_eq_true_2 by (rewrite Hfs; eauto).
    unfold try_except, bind, read_file. by rewrite Hfs. }
  assert (Hnone : fs (world s) !! abspath cf = None →
            load_context s = (Ok default, s)).
  { intros Hfs. rewrite Hgo. unfold path_exists.
    rewrite bool_decide_eq_false_2; [done|]. rewrite Hfs. by intros [? ?]. }
  repeat split.
  - intros data t j Hfs Hj. by rewrite (Hfile data t Hfs), Hj.
  - done.
  - intros data t Hfs Hj. by rewrite (Hfile data t Hfs), Hj.
  - done.
  - destruct (fs (world s) !! abspath cf) as [[data t|t]|] eqn:Hfs.
    + rewrite (Hfile data t eq_refl). destruct (json_loads data); eauto.
    + rewrite (Hdir t eq_refl). eauto.
    + rewrite (Hnone eq_refl). eauto.
  - exists (JObj [("name", JStr "Sample Item"); ("quantity", JInt 1);
                  ("price", JFloat 999 2)]).
    split; [|reflexivity]. simpl. set_solver.
Qed.

(** Without a configured context file the default payload is returned and
    nothing is printed. *)
Lemma load_context_unconfigured s :
  truthy (context_file (config s)) = false →
  load_context s = (Ok (default_context (today (world s))), s).
Proof.
  intros Ht. unfold load_context, bind, gets. simpl.
  destruct (context_file (config s)); [|done]. by rewrite Ht.
Qed.

End ContextLoader.

(** ** Debouncing *)

Section Debounce.

Context `{Collaborators}.

Lemma arrive_log d s : log (world (arrive d s)) = log (world s).
Proof. done. Qed.

(** Events that fall into the window of the last dispatch are all dropped. *)
Lemma run_coalesced ds : ∀ s,
  Forall (λ x, relevant (config s) (d_event x) = true ∧
               d_time x - last_render_time (watcher s) < debounce_ms (config s))
         ds →
  dispatches (run ds s) = dispatches s ∧
  renders (run ds s) = renders s ∧
  config (run ds s) = config s ∧
  renderer (run ds s) = renderer s ∧
  last_render_time (watcher (run ds s)) = last_render_time (watcher s) ∧
  (ds ≠ [] → pending_render (watcher (run ds s)) = true).
Proof.
  induction ds as [|d ds IH]; intros s Hall; simpl.
  - done.
  - apply Forall_cons in Hall as [[Hr Hlt] Hall].
    rewrite (deliver_coalesced s d Hr Hlt).
    set (s1 := with_watcher _ (arrive d s)).
    destruct (IH s1) as (Hd & Hn & Hc & Hrd & Hl & Hp); [done|].
    split_and!.
    + by rewrite Hd.
    + by rewrite Hn.
    + by rewrite Hc.
    + by rewrite Hrd.
    + by rewrite Hl.
    + intros _. destruct ds as [|d' ds]; [done|]. by apply Hp.
Qed.

(** C2.  Relevant change events handled by [on_modified].
    (1) An event that arrives less than the debounce interval after the
    last dispatch sets [pending_render] and is dropped: nothing else in the
    heap changes, so nothing is dispatched or rendered.
    (2) Consequently a burst of relevant events, the first of which arrives
    at least the interval after the last dispatch and all others less than
    the interval after the first, produces exactly one dispatch.
    (3) Two relevant events, the first dispatched and the second at least
    the interval (equality included) after it, are both dispatched. *)
Theorem C2_debounce (s : Sys) :
  (∀ ev,
     relevant (config s) ev = true →
     clock (world s) - last_render_time (watcher s) < debounce_ms (config s) →
     on_modified ev s =
       (Ok tt, with_watcher (mkWatcher (last_render_time (watcher s)) true) s))
  ∧
  (∀ d ds,
     relevant (config s) (d_event d) = true →
     debounce_ms (config s) ≤ d_time d - last_render_time (watcher s) →
     Forall (λ x, relevant (config s) (d_event x) = true ∧
                  d_time x - d_time d < debounce_ms (config s)) ds →
     dispatches (run (d :: ds) s) = S (dispatches s))
  ∧
  (∀ d1 d2,
     relevant (config s) (d_event d1) = true →
     relevant (config s) (d_event d2) = true →
     debounce_ms (config s) ≤ d_time d1 - last_render_time (watcher s) →
     debounce_ms (config s) ≤ d_time d2 - d_time d1 →
     dispatches (deliver s d1) = S (dispatches s) ∧
     dispatches (run [d1; d2] s) = S (S (dispatches s))).
Proof.
  split; [|split].
  - intros ev Hr Hlt. by apply on_modified_coalesced.
  - intros d ds Hr Hge Hall. simpl.
    destruct (deliver_dispatched s d Hr Hge) as (Hw & [j Hc] & Hd).
    destruct (run_coalesced ds (deliver s d)) as (Hd' & _).
    + eapply Forall_impl; [exact Hall|]. intros x [Hx Hlt].
      rewrite Hc, Hw. simpl. done.
    + by rewrite Hd', Hd.
  - intros d1 d2 Hr1 Hr2 Hge1 Hge2. simpl.
    destruct (deliver_dispatched s d1 Hr1 Hge1) as (Hw & [j Hc] & Hd).
    split; [done|].
    destruct (deliver_dispatched (deliver s d1) d2) as (_ & _ & Hd2).
    + by rewrite Hc.
    + rewrite Hc, Hw. simpl. done.
    + by rewrite Hd2, Hd.
Qed.

End Debounce.

(** ** Dispatch and the context reload *)

Section Dispatch.

Context `{Collaborators}.

Lemma is_configured_here cf :
  cf ≠ "" → is_configured (Some cf) (abspath cf) = true.
Proof.
  intros Hne. unfold is_configured, truthy.
  rewrite (proj2 (String.eqb_neq _ _) Hne), String.eqb_refl. done.
Qed.

Lemma reload_context_fails cf s :
  context_unloadable (world s) cf →
  reload_context cf s =
    (Ok false,
     with_world (set_log (log (world s) ++ [PrintErrorReloading]) (world s)) s).
Proof.
  unfold context_unloadable, reload_context, try_except, bind, read_file,
    json_load.
  destruct (fs (world s) !! abspath cf) as [[data t|t]|]; try done.
  intros ->. done.
Qed.

Lemma reload_context_succeeds cf s data t j :
  fs (world s) !! abspath cf = Some (File data t) →
  json_loads data = Some j →
  reload_context cf s =
    (Ok true,
     with_world (set_log (log (world s) ++ [PrintContextReloaded]) (world s))
       (put_context_data j s)).
Proof.
  intros Hfs Hj.
  unfold reload_context, try_except, bind, read_file, json_load.
  rewrite Hfs, Hj. done.
Qed.

(** A dispatch for the context file starts with the reload. *)
Lemma trigger_render_context_file cf s :
  context_file (config s) = Some cf →
  cf ≠ "" →
  _trigger_render (abspath cf) s =
    bind (reload_context cf)
      (λ proceed,
         if proceed
         then try_except (render_and_generate_pdf (auto_open (config s)))
                         (λ _, emit PrintErrorRender)
         else ret tt)
      (with_world
         (set_log (log (world s) ++ [PrintChangeDetected (basename (abspath cf))])
            (world s)) s).
Proof.
  intros Hcf Hne. pose proof (is_configured_here cf Hne) as Hic.
  unfold _trigger_render.
  set (s1 := with_world _ s).
  change (bind (emit (PrintChangeDetected (basename (abspath cf)))) ?k s)
    with (k tt s1).
  cbv beta. unfold bind at 1. unfold gets at 1. cbv beta iota.
  change (config s1) with (config s). rewrite Hcf. by rewrite Hic.
Qed.

(** When the reload fails, the dispatch prints two lines and stops. *)
Lemma trigger_render_abort cf s :
  context_file (config s) = Some cf →
  cf ≠ "" →
  context_unloadable (world s) cf →
  _trigger_render (abspath cf) s =
    (Ok tt,
     with_world
       (set_log (log (world s) ++ [PrintChangeDetected (basename (abspath cf));
                                   PrintErrorReloading])
          (world s)) s).
Proof.
  intros Hcf Hne Hbad. rewrite trigger_render_context_file by done.
  unfold bind. rewrite reload_context_fails by done.
  simpl. by rewrite <- app_assoc.
Qed.

(** C4.  A dispatch whose changed path is the context file.  The context
    is reloaded before rendering: when the file parses, the pipeline runs in
    the heap that already holds the new payload.  When the reload fails, the
    cycle is aborted: the user is told (the change banner and the reload
    error are the only things printed), the pipeline is not run, and the
    configuration with its in-memory payload, the watcher with its
    [pending_render] flag, the renderer and the disk are as before. *)
Theorem C4_reload_failure_aborts (cf : string) (s : Sys) :
  context_file (config s) = Some cf →
  cf ≠ "" →
  let changed := abspath cf in
  let banner := PrintChangeDetected (basename changed) in
  (∀ data t j,
     fs (world s) !! abspath cf = Some (File data t) →
     json_loads data = Some j →
     _trigger_render changed s =
       try_except (render_and_generate_pdf (auto_open (config s)))
                  (λ _, emit PrintErrorRender)
         (with_world
            (set_log (log (world s) ++ [banner; PrintContextReloaded]) (world s))
            (put_context_data j s)))
  ∧
  (context_unloadable (world s) cf →
     let s' := snd (_trigger_render changed s) in
     fst (_trigger_render changed s) = Ok tt ∧
     log (world s') = (log (world s) ++ [banner; PrintErrorReloading])%list ∧
     renders s' = renders s ∧
     config s' = config s ∧
     context_data (config s') = context_data (config s) ∧
     pending_render (watcher s') = pending_render (watcher s) ∧
     watcher s' = watcher s ∧
     renderer s' = renderer s ∧
     fs (world s') = fs (world s)).
Proof.
  intros Hcf Hne changed banner. subst changed banner. split.
  - intros data t j Hfs Hj. rewrite trigger_render_context_file by done.
    unfold bind.
    rewrite (reload_context_succeeds cf _ data t j) by done.
    simpl. by rewrite <- app_assoc.
  - intros Hbad s'. subst s'. rewrite trigger_render_abort by done.
    simpl. split_and!; try done.
    unfold renders. simpl. rewrite !count_app. simpl. lia.
Qed.

(** C9.  A dispatch whose context reload fails still opens a debounce
    window: the last-render time is the event's time although nothing was
    rendered, and every relevant event that arrives less than the debounce
    interval after the failed attempt is dropped with the flag set; none of
    them is dispatched and none renders. *)
Theorem C9_failed_reload_consumes_window (cf : string) (s : Sys)
    (d : delivery) (ds : list delivery) :
  context_file (config s) = Some cf →
  cf ≠ "" →
  is_directory (d_event d) = false →
  src_path (d_event d) = abspath cf →
  debounce_ms (config s) ≤ d_time d - last_render_time (watcher s) →
  context_unloadable (world (arrive d s)) cf →
  Forall (λ x, relevant (config s) (d_event x) = true ∧
               d_time x - d_time d < debounce_ms (config s)) ds →
  let s1 := deliver s d in
  last_render_time (watcher s1) = d_time d ∧
  renders s1 = renders s ∧
  dispatches (run ds s1) = dispatches s1 ∧
  renders (run ds s1) = renders s ∧
  last_render_time (watcher (run ds s1)) = d_time d ∧
  (ds ≠ [] → pending_render (watcher (run ds s1)) = true).
Proof.
  intros Hcf Hne Hdir Hpath Hge Hbad Hall s1.
  assert (Hrel : relevant (config s) (d_event d) = true).
  { apply relevant_spec. split; [done|]. unfold should_render.
    rewrite Hpath, Hcf, (is_configured_here cf Hne).
    by destruct (is_configured (template_file (config s)) (abspath cf)). }
  assert (Hs1 : s1 =
            with_world
              (set_log (log (world s) ++
                          [PrintChangeDetected (basename (abspath cf));
                           PrintErrorReloading])
                 (world (arrive d s)))
              (with_watcher (mkWatcher (d_time d) (pending_render (watcher s)))
                 (arrive d s))).
  { subst s1. unfold deliver. rewrite on_modified_dispatched by done.
    rewrite Hpath. by rewrite trigger_render_abort. }
  assert (Hn1 : renders s1 = renders s).
  { rewrite Hs1. unfold renders. simpl. rewrite count_app. simpl. lia. }
  destruct (run_coalesced ds s1) as (Hd & Hn' & _ & _ & Hl & Hp).
  { eapply Forall_impl; [exact Hall|]. intros x [Hx Hlt].
    rewrite Hs1. done. }
  split_and!; try done.
  - by rewrite Hs1.
  - by rewrite Hn'.
  - rewrite Hl. by rewrite Hs1.
Qed.

End Dispatch.

(** ** The pending flag and the first event *)

Section Pending.

Context `{Collaborators}.

Lemma trigger_render_watcher changed s :
  watcher (snd (_trigger_render changed s)) = watcher s.
Proof. by destruct (trigger_render_frame changed s) as (Hw & _). Qed.

(** A delivery never resets the flag. *)
Lemma deliver_pending_stays s d :
  pending_render (watcher s) = true →
  pending_render (watcher (deliver s d)) = true.
Proof.
  intros Hp.
  destruct (relevant (config s) (d_event d)) eqn:Hr.
  - destruct (Z.lt_ge_cases (d_time d - last_render_time (watcher s))
                (debounce_ms (config s))) as [Hlt | Hge].
    + by rewrite deliver_coalesced.
    + destruct (deliver_dispatched s d Hr Hge) as (Hw & _).
      rewrite Hw. done.
  - by rewrite deliver_irrelevant.
Qed.

Lemma run_pending_stays ds : ∀ s,
  pending_render (watcher s) = true →
  pending_render (watcher (run ds s)) = true.
Proof.
  induction ds as [|d ds IH]; intros s Hp; simpl; [done|].
  apply IH. by apply deliver_pending_stays.
Qed.

(** C5, as the code has it.  [pending_render] starts false; a relevant
    event that arrives inside the window of the last dispatch sets it; a
    dispatch leaves it as it was, and so does an event that is filtered
    out; hence once set it stays set over any further deliveries.  It is
    written only by [on_modified]: a dispatch ([_trigger_render]) and the
    render pipeline keep the whole watcher. *)
Theorem C5_pending_render_lifecycle (s : Sys) (d : delivery) :
  pending_render FileWatcher_init = false ∧
  (relevant (config s) (d_event d) = true →
   d_time d - last_render_time (watcher s) < debounce_ms (config s) →
   pending_render (watcher (deliver s d)) = true) ∧
  (relevant (config s) (d_event d) = true →
   debounce_ms (config s) ≤ d_time d - last_render_time (watcher s) →
   dispatches (deliver s d) = S (dispatches s) ∧
   pending_render (watcher (deliver s d)) = pending_render (watcher s)) ∧
  (relevant (config s) (d_event d) = false →
   watcher (deliver s d) = watcher s) ∧
  (∀ ds, pending_render (watcher s) = true →
         pending_render (watcher (run ds s)) = true) ∧
  (∀ changed, watcher (snd (_trigger_render changed s)) = watcher s) ∧
  (∀ ao, watcher (snd (render_and_generate_pdf ao s)) = watcher s).
Proof.
  split_and!.
  - done.
  - intros Hr Hlt. by rewrite deliver_coalesced.
  - intros Hr Hge. destruct (deliver_dispatched s d Hr Hge) as (Hw & _ & Hd).
    split; [done|]. by rewrite Hw.
  - intros Hr. by rewrite deliver_irrelevant.
  - intros ds. apply run_pending_stays.
  - intros changed. apply trigger_render_watcher.
  - intros ao. apply (keeps_render_and_generate_pdf ao s).
Qed.

(** C10, as the code has it.  The watcher starts with a last-render time
    of zero and the initial render does not touch it, so the first relevant
    event is dispatched at once whenever the clock reading at its arrival
    (milliseconds since the epoch) is at least the debounce interval; how
    long ago the initial render ran plays no part. *)
Theorem C10_first_event_dispatches (s0 : Sys) (ao : bool) (d : delivery) :
  watcher s0 = FileWatcher_init →
  let s := snd (render_and_generate_pdf ao s0) in
  relevant (config s) (d_event d) = true →
  debounce_ms (config s) ≤ d_time d →
  last_render_time (watcher s) = 0 ∧
  dispatches (deliver s d) = S (dispatches s) ∧
  last_render_time (watcher (deliver s d)) = d_time d.
Proof.
  intros Hinit s Hr Hge.
  assert (Hw : watcher s = FileWatcher_init).
  { subst s. rewrite <- Hinit. apply (keeps_render_and_generate_pdf ao s0). }
  assert (Hge' : debounce_ms (config s) ≤ d_time d - last_render_time (watcher s)).
  { rewrite Hw. simpl. lia. }
  destruct (deliver_dispatched s d Hr Hge') as (Hw' & _ & Hd).
  split_and!; [by rewrite Hw | done | by rewrite Hw'].
Qed.

End Pending.

(** ** The pipeline does not read the in-memory context payload *)

Section Blind.

Context `{Collaborators}.

Lemma blind_ret {A} (a : A) : blind (ret a).
Proof. done. Qed.

Lemma blind_raise {A} e : blind (@raise A e).
Proof. done. Qed.

Lemma blind_gets {A} (f : Sys → A) :
  (∀ d s, f (put_context_data d s) = f s) → blind (gets f).
Proof. intros Hf d s. unfold gets. by rewrite Hf. Qed.

Lemma blind_modify (f : Sys → Sys) :
  (∀ d s, f (put_context_data d s) = put_context_data d (f s)) →
  blind (modify f).
Proof. intros Hf d s. unfold modify. by rewrite Hf. Qed.

Lemma blind_bind {A B} (m : M A) (k : A → M B) :
  blind m → (∀ a, blind (k a)) → blind (bind m k).
Proof.
  intros Hm Hk d s. unfold bind. rewrite Hm.
  destruct (m s) as [[a|e] s']; simpl; [apply Hk | done].
Qed.

Lemma blind_try_except {A} (m : M A) (h : exn → M A) :
  blind m → (∀ e, blind (h e)) → blind (try_except m h).
Proof.
  intros Hm Hh d s. unfold try_except. rewrite Hm.
  destruct (m s) as [[a|e] s']; simpl; [done | apply Hh].
Qed.

(** Reading the configuration is allowed when what follows looks only at
    fields other than the payload. *)
Lemma blind_with_config {B} (k : WeeConfig → M B) :
  (∀ d c, k (set_context_data d c) = k c) →
  (∀ c, blind (k c)) →
  blind (bind (gets config) k).
Proof.
  intros Hk Hb d s. unfold bind, gets. simpl. rewrite Hk. apply Hb.
Qed.

Lemma blind_emit o : blind (emit o).
Proof. by apply blind_modify. Qed.

Lemma blind_getmtime p : blind (getmtime p).
Proof. intros d s. unfold getmtime. simpl. by case_match. Qed.

Lemma blind_read_file p : blind (read_file p).
Proof. intros d s. unfold read_file. simpl. by repeat case_match. Qed.

Lemma blind_write_file p data : blind (write_file p data).
Proof. intros d s. unfold write_file. simpl. by repeat case_match. Qed.

Lemma blind_json_load data : blind (json_load data).
Proof. unfold json_load. by case_match. Qed.

Ltac blind_step :=
  first
    [ apply blind_ret | apply blind_raise
    | apply blind_emit
    | apply blind_getmtime | apply blind_read_file | apply blind_write_file
    | apply blind_json_load
    | assumption
    | apply blind_with_config; [ reflexivity | intros ? ]
    | apply blind_gets; reflexivity
    | apply blind_modify; reflexivity
    | apply blind_bind; [ | intros ? ]
    | apply blind_try_except; [ | intros ? ]
    | progress case_match ].

Ltac blind_tac := repeat blind_step.

Lemma blind_get_template env name : blind (get_template env name).
Proof. unfold get_template. blind_tac. Qed.

Lemma blind_template_render env t context :
  blind (template_render env t context).
Proof. unfold template_render. blind_tac. Qed.

Lemma blind_get_environment : blind _get_environment.
Proof. unfold _get_environment. blind_tac. Qed.

Lemma blind_load_and_render env name key context :
  blind (load_and_render env name key context).
Proof.
  pose proof blind_get_template. pose proof blind_template_render.
  unfold load_and_render. blind_tac; auto.
Qed.

Lemma blind_render_template path context :
  blind (render_template path context).
Proof.
  pose proof blind_get_environment.
  unfold render_template. blind_tac;
    auto using blind_template_render, blind_load_and_render.
Qed.

Lemma blind_load_context : blind load_context.
Proof. unfold load_context. blind_tac. Qed.

Lemma blind_html_to_pdf html path : blind (html_to_pdf html path).
Proof. unfold html_to_pdf. blind_tac. Qed.

Lemma blind_popen argv : blind (popen argv).
Proof. unfold popen. blind_tac. Qed.

Lemma blind_open_pdf path : blind (open_pdf path).
Proof. unfold open_pdf. blind_tac; apply blind_popen. Qed.

Lemma blind_render_and_generate_pdf ao : blind (render_and_generate_pdf ao).
Proof.
  pose proof blind_load_context.
  unfold render_and_generate_pdf. blind_tac;
    auto using blind_render_template, blind_html_to_pdf, blind_open_pdf.
Qed.

(** C8.  The render pipeline is independent of the in-memory context
    payload: run under any two values of [context_data], it returns the
    same result, prints the same, leaves the same disk (markup and PDF) and
    the same renderer and watcher; the payload itself is carried through
    unread.  The context it renders with is the one [load_context] reads
    from disk. *)
Theorem C8_pipeline_ignores_context_data (ao : bool) (s : Sys) (d1 d2 : json) :
  let r1 := render_and_generate_pdf ao (put_context_data d1 s) in
  let r2 := render_and_generate_pdf ao (put_context_data d2 s) in
  fst r1 = fst r2 ∧
  world (snd r1) = world (snd r2) ∧
  renderer (snd r1) = renderer (snd r2) ∧
  watcher (snd r1) = watcher (snd r2) ∧
  context_data (config (snd r1)) = d1 ∧
  context_data (config (snd r2)) = d2 ∧
  snd r2 = put_context_data d2 (snd r1).
Proof.
  intros r1 r2. subst r1 r2.
  rewrite (blind_render_and_generate_pdf ao d1 s),
          (blind_render_and_generate_pdf ao d2 s).
  simpl. done.
Qed.

End Blind.

(** ** The event filter and the markup path *)

Section Filter.

Context `{Collaborators}.

(** What the chain of tests in [on_modified] amounts to. *)
Lemma should_render_spec c p :
  should_render c p = true ↔
  is_configured (template_file c) p = true ∨
  is_configured (context_file c) p = true ∨
  ∃ d, template_dir c = Some d ∧ d ≠ "" ∧ startswith p (abspath d) = true.
Proof.
  unfold should_render.
  destruct (is_configured (template_file c) p); [by split; auto|].
  destruct (is_configured (context_file c) p); [by split; auto|].
  destruct (template_dir c) as [d|] eqn:Hd.
  - unfold truthy. destruct (String.eqb_spec d "") as [->|Hne]; simpl.
    + split; [done|]. intros [?|[?|(d' & Hd' & Hne & _)]]; try done.
      by simplify_eq.
    + destruct (startswith p (abspath d)) eqn:Hs.
      * split; [|done]. intros _. right. right. by exists d.
      * split; [done|]. intros [?|[?|(d' & Hd' & _ & Hs')]]; try done.
        simplify_eq. congruence.
  - split; [done|]. by intros [?|[?|(d' & Hd' & _)]].
Qed.

(** Events that do not pass the filter change nothing at all. *)
Lemma dropped_events_have_no_effect ev s :
  relevant (config s) ev = false → on_modified ev s = (Ok tt, s).
Proof. apply on_modified_irrelevant. Qed.

Lemma prefix_cons_ne a b s1 s2 :
  a ≠ b → String.prefix (String a s1) (String b s2) = false.
Proof.
  intros Hne. cbn [String.prefix]. by destruct (Ascii.ascii_dec a b).
Qed.

(** A path whose only dot begins the extension [.pdf] gets the sibling
    [.html] path. *)
Lemma str_replace_extension stem :
  (∀ i, String.get i stem ≠ Some (Ascii.ascii_of_nat 46)) →
  str_replace ".pdf" ".html" (stem ++ ".pdf") = stem ++ ".html".
Proof.
  unfold str_replace. induction stem as [|c stem IH]; intros Hdot.
  - reflexivity.
  - assert (Hc : c ≠ Ascii.ascii_of_nat 46).
    { intros ->. by apply (Hdot O). }
    change (String c stem ++ ".pdf") with (String c (stem ++ ".pdf")).
    cbn [replace_from].
    assert (Hp : String.prefix ".pdf" (String c (stem ++ ".pdf")) = false).
    { apply prefix_cons_ne. intros E. apply Hc. by rewrite <- E. }
    rewrite Hp.
    change (String c stem ++ ".html") with (String c (stem ++ ".html")).
    f_equal. apply IH.
    intros i. apply (Hdot (S i)).
Qed.

End Filter.

(** * Worked examples on the demo site *)

Section Examples.

Import Demo.

#[local] Existing Instance posix.

(** C3.  The template directory is [/srv/tpl]; a file in the unrelated
    directory [/srv/tpl_old] is modified.  It is neither the template nor
    the context file and is not nested under the template directory, yet
    its path begins with the directory's path as a string, so the event
    passes the filter and a render is dispatched. *)
Theorem C3_sibling_directory_triggers_render :
  template_dir (config start) = Some tpl ∧
  ¬ nested_under (abspath tpl) stray ∧
  is_configured (template_file (config start)) stray = false ∧
  is_configured (context_file (config start)) stray = false ∧
  startswith stray (abspath tpl) = true ∧
  relevant (config start) (d_event (touch t0 stray)) = true ∧
  dispatches (deliver start (touch t0 stray)) = 1%nat ∧
  renders (deliver start (touch t0 stray)) = 1%nat.
Proof.
  split_and!; try (vm_compute; reflexivity).
  intros [rest Heq]. vm_compute in Heq. discriminate Heq.
Qed.

(** C7.  The output path is [/srv/report.PDF].  [str.replace] finds no
    [.pdf] in it, so the markup path is the output path itself: the markup
    is written there, reported as saved, and then overwritten by the PDF;
    no [/srv/report.html] exists afterwards. *)
Theorem C7_markup_path_is_the_pdf_path :
  let s' := snd (render_and_generate_pdf false shouting) in
  output_pdf (config shouting) = "/srv/report.PDF" ∧
  html_output_path (config shouting) = output_pdf (config shouting) ∧
  fst (render_and_generate_pdf false shouting) = Ok tt ∧
  log (world s') =
    [PrintRendering (Some page); LoadTemplate "page.html";
     PrintTemplateRendered; PrintHtmlSaved "/srv/report.PDF";
     PrintPdfGenerated "/srv/report.PDF"] ∧
  fs (world s') !! "/srv/report.PDF" =
    Some (File "%PDF <p>Hi</p>" (clock world0)) ∧
  fs (world s') !! "/srv/report.html" = None.
Proof. split_and!; vm_compute; reflexivity. Qed.

(** C5, counterexample.  Three modifications of the template: the first is
    dispatched, the second falls into its window and sets the flag, the
    third arrives later and is dispatched, and the flag is still set after
    that dispatch. *)
Lemma C5_counterexample :
  let e1 := touch t0 page in
  let e2 := touch (t0 + 50) page in
  let e3 := touch (t0 + 400) page in
  pending_render (watcher (run [e1] start)) = false ∧
  pending_render (watcher (run [e1; e2] start)) = true ∧
  dispatches (run [e1; e2] start) = 1%nat ∧
  dispatches (run [e1; e2; e3] start) = 2%nat ∧
  renders (run [e1; e2; e3] start) = 2%nat ∧
  pending_render (watcher (run [e1; e2; e3] start)) = true.
Proof. split_and!; vm_compute; reflexivity. Qed.

(** C10, counterexample.  With a debounce interval longer than the time
    since the epoch, the first relevant event after the initial render is
    not dispatched: it is dropped with the flag set. *)
Lemma C10_counterexample :
  let s := snd (render_and_generate_pdf false patient) in
  watcher s = FileWatcher_init ∧
  renders s = 1%nat ∧
  relevant (config s) (d_event (touch t0 page)) = true ∧
  dispatches (deliver s (touch t0 page)) = dispatches s ∧
  renders (deliver s (touch t0 page)) = renders s ∧
  watcher (deliver s (touch t0 page)) = mkWatcher 0 true.
Proof. split_and!; vm_compute; reflexivity. Qed.

(** *** The general theorems at concrete inputs *)

(** C1 at a fresh entry with equal timestamps, and at a stale entry. *)
Lemma C1_witness :
  fst (render_template (Some page) (JObj []) cached) = Ok "<p>Old</p>" ∧
  loads (snd (render_template (Some page) (JObj []) cached)) = loads cached ∧
  loads (snd (render_template (Some page) (JObj []) stale)) = S (loads stale) ∧
  fst (render_template (Some page) (JObj []) stale) = Ok "<p>Hi</p>" ∧
  _template_cache (renderer (snd (render_template (Some page) (JObj []) stale)))
    !! page = Some ("<p>Hi</p>", 100).
Proof.
  destruct (C1_render_template_cache page (JObj []) cached) as [Hhit _].
  destruct (Hhit "<p>Old</p>" 100 100) as (H1 & H2 & _);
    [vm_compute; reflexivity | vm_compute; reflexivity | lia |].
  destruct (C1_render_template_cache page (JObj []) stale) as [_ Hmiss].
  destruct Hmiss as [H3 H4].
  { right. exists "<p>Old</p>", 99, 100.
    split_and!; [vm_compute; reflexivity | vm_compute; reflexivity | lia]. }
  destruct (H4 "<p>Hi</p>" "<p>Hi</p>" 100) as [H5 H6];
    [vm_compute; reflexivity | vm_compute; reflexivity
    | vm_compute; reflexivity |].
  split_and!; [exact H1 | exact H2 | exact H3 | exact H5 | exact H6].
Defined.

(** C2 on the demo site: an event 50 ms after a dispatch is dropped; a
    burst of three produces one dispatch; two events exactly 100 ms apart
    produce two. *)
Lemma C2_witness :
  let s1 := arrive (touch (t0 + 50) page) (deliver start (touch t0 page)) in
  pending_render (watcher (snd (on_modified (mkEvent false page) s1))) = true ∧
  dispatches (snd (on_modified (mkEvent false page) s1)) = dispatches s1 ∧
  dispatches (run [touch t0 page; touch (t0 + 50) page; touch (t0 + 80) stray]
                start) = 1%nat ∧
  dispatches (run [touch t0 page; touch (t0 + 100) page] start) = 2%nat.
Proof.
  intros s1.
  destruct (C2_debounce s1) as (Hdrop & _).
  destruct (C2_debounce start) as (_ & Hburst & Htwo).
  split_and!.
  - rewrite (Hdrop (mkEvent false page)); by vm_compute.
  - rewrite (Hdrop (mkEvent false page)); by vm_compute.
  - apply (Hburst (touch t0 page)
             [touch (t0 + 50) page; touch (t0 + 80) stray]);
      [by vm_compute | by vm_compute |].
    repeat constructor; by vm_compute.
  - apply (Htwo (touch t0 page) (touch (t0 + 100) page)); by vm_compute.
Defined.

(** C4 on the demo site: the context file parses, and then it does not. *)
Lemma C4_witness :
  let broken := arrive (break_context t0) start in
  log (world (snd (_trigger_render data_json start))) =
    [PrintChangeDetected "data.json"; PrintContextReloaded;
     PrintRendering (Some page); LoadTemplate "page.html";
     PrintTemplateRendered; PrintHtmlSaved "/srv/out.html";
     PrintPdfGenerated "/srv/out.pdf"] ∧
  log (world (snd (_trigger_render data_json broken))) =
    [PrintChangeDetected "data.json"; PrintErrorReloading] ∧
  config (snd (_trigger_render data_json broken)) = config broken ∧
  watcher (snd (_trigger_render data_json broken)) = watcher broken.
Proof.
  intros broken.
  destruct (C4_reload_failure_aborts data_json start) as [Hok _];
    [reflexivity | discriminate |].
  destruct (C4_reload_failure_aborts data_json broken) as [_ Hbad];
    [reflexivity | discriminate |].
  destruct Hbad as (_ & Hl & _ & Hc & _ & _ & Hw & _);
    [by vm_compute |].
  split_and!; [| exact Hl | exact Hc | exact Hw].
  change data_json with (abspath data_json) at 1.
  rewrite (Hok "{}" 100 (JObj [])); by vm_compute.
Defined.

(** C6 on the demo site: the file parses, does not parse, is missing. *)
Lemma C6_witness :
  let broken := arrive (break_context t0) start in
  let missing := with_world (set_fs ∅ world0) start in
  load_context start = (Ok (JObj []), start) ∧
  load_context broken = (Ok (default_context "2026-01-01"), warned broken) ∧
  load_context missing = (Ok (default_context "2026-01-01"), missing).
Proof.
  intros broken missing.
  destruct (C6_load_context start data_json) as (Hok & _);
    [reflexivity | discriminate |].
  destruct (C6_load_context broken data_json) as (_ & _ & Hbad & _);
    [reflexivity | discriminate |].
  destruct (C6_load_context missing data_json) as (_ & Hnone & _);
    [reflexivity | discriminate |].
  split_and!.
  - apply (Hok "{}" 100); by vm_compute.
  - apply (Hbad "{oops" t0); by vm_compute.
  - apply Hnone. by vm_compute.
Defined.

(** C9 on the demo site: the context file is broken, and two more events
    arrive within 100 ms of the failed attempt. *)
Lemma C9_witness :
  let s1 := deliver start (break_context t0) in
  let ds := [touch (t0 + 50) page; touch (t0 + 80) data_json] in
  last_render_time (watcher s1) = t0 ∧
  renders s1 = 0%nat ∧
  dispatches (run ds s1) = dispatches s1 ∧
  renders (run ds s1) = 0%nat ∧
  pending_render (watcher (run ds s1)) = true.
Proof.
  intros s1 ds.
  destruct (C9_failed_reload_consumes_window data_json start
              (break_context t0) ds)
    as (H1 & H2 & H3 & H4 & _ & H6);
    [reflexivity | discriminate | reflexivity | reflexivity
    | by vm_compute | by vm_compute | repeat constructor; by vm_compute |].
  split_and!; [exact H1 | exact H2 | exact H3 | exact H4 | by apply H6].
Defined.

(** The amended C5 on the demo site. *)
Lemma C5_witness :
  let s1 := deliver start (touch t0 page) in
  pending_render (watcher (deliver s1 (touch (t0 + 50) page))) = true ∧
  pending_render (watcher (deliver start (touch t0 page))) = false ∧
  watcher (deliver start (touch t0 "/srv/readme.txt")) = watcher start.
Proof.
  intros s1.
  destruct (C5_pending_render_lifecycle s1 (touch (t0 + 50) page))
    as (_ & Hset & _).
  destruct (C5_pending_render_lifecycle start (touch t0 page))
    as (_ & _ & Hkeep & _).
  destruct (C5_pending_render_lifecycle start (touch t0 "/srv/readme.txt"))
    as (_ & _ & _ & Hdrop & _).
  split_and!.
  - apply Hset; by vm_compute.
  - destruct Hkeep as [_ Hk]; [by vm_compute | by vm_compute |]. exact Hk.
  - apply Hdrop. by vm_compute.
Defined.

(** The amended C10 on the demo site: debounce 100 ms, first event half a
    second after the initial render. *)
Lemma C10_witness :
  let s := snd (render_and_generate_pdf false start) in
  dispatches (deliver s (touch t0 page)) = 1%nat ∧
  last_render_time (watcher (deliver s (touch t0 page))) = t0.
Proof.
  intros s.
  destruct (C10_first_event_dispatches start false (touch t0 page))
    as (_ & H2 & H3); [reflexivity | by vm_compute | by vm_compute |].
  split; [exact H2 | exact H3].
Defined.

End Examples.

(** * Further properties of the script *)

(** ** The event handler *)

Section Handler.

Context `{Collaborators}.

(** X1.  [on_modified] never raises: whatever fails while the context is
    reloaded or the pipeline runs is caught inside the dispatch, so the
    watch loop survives every event. *)
Theorem on_modified_never_raises (ev : event) (s : Sys) :
  fst (on_modified ev s) = Ok tt.
Proof.
  destruct (relevant (config s) ev) eqn:Hr.
  - destruct (Z.lt_ge_cases (clock (world s) - last_render_time (watcher s))
                (debounce_ms (config s))) as [Hlt | Hge].
    + by rewrite on_modified_coalesced.
    + rewrite on_modified_dispatched by done. apply trigger_render_returns.
  - by rewrite on_modified_irrelevant.
Qed.

(** One delivery either dispatches, and then moves the last-render time
    forward by at least the debounce interval, or leaves both the number of
    dispatches and the last-render time as they were. *)
Lemma deliver_cases s d :
  (∃ j, config (deliver s d) = set_context_data j (config s)) ∧
  ((dispatches (deliver s d) = dispatches s ∧
    last_render_time (watcher (deliver s d)) = last_render_time (watcher s)) ∨
   (dispatches (deliver s d) = S (dispatches s) ∧
    last_render_time (watcher (deliver s d)) = d_time d ∧
    debounce_ms (config s) ≤ d_time d - last_render_time (watcher s))).
Proof.
  destruct (relevant (config s) (d_event d)) eqn:Hr.
  - destruct (Z.lt_ge_cases (d_time d - last_render_time (watcher s))
                (debounce_ms (config s))) as [Hlt | Hge].
    + rewrite deliver_coalesced by done. split; [|by left].
      exists (context_data (config s)). simpl. by rewrite set_context_data_id.
    + destruct (deliver_dispatched s d Hr Hge) as (Hw & Hc & Hd).
      split; [done|]. right. by rewrite Hw.
  - rewrite deliver_irrelevant by done. split; [|by left].
    exists (context_data (config s)). simpl. by rewrite set_context_data_id.
Qed.

(** X2.  Rate limit.  Over any sequence of deliveries, every dispatch moves
    the last-render time forward by at least the debounce interval: the
    number of dispatches times the interval is at most the distance the
    last-render time has travelled.  The number of dispatches never
    decreases. *)
Theorem dispatches_are_rate_limited (ds : list delivery) (s : Sys) :
  (dispatches s ≤ dispatches (run ds s))%nat ∧
  debounce_ms (config s) *
    (Z.of_nat (dispatches (run ds s)) - Z.of_nat (dispatches s))
  ≤ last_render_time (watcher (run ds s)) - last_render_time (watcher s).
Proof.
  revert s. induction ds as [|d ds IH]; intros s; simpl.
  - split; [done | lia].
  - destruct (deliver_cases s d) as ([j Hc] & Hcase).
    destruct (IH (deliver s d)) as [Hmono Hrate].
    rewrite Hc in Hrate. simpl in Hrate.
    destruct Hcase as [[Hd Hl] | (Hd & Hl & Hge)].
    + rewrite Hd, Hl in *. done.
    + rewrite Hd, Hl in *. split; [lia|].
      rewrite Nat2Z.inj_succ in Hrate. lia.
Qed.

(** X3.  The watcher never changes the configuration except for its
    context payload: after any sequence of deliveries the paths, the
    flags and the debounce interval are those it started with. *)
Theorem run_keeps_configuration (ds : list delivery) (s : Sys) :
  ∃ j, config (run ds s) = set_context_data j (config s).
Proof.
  revert s. induction ds as [|d ds IH]; intros s; simpl.
  - exists (context_data (config s)). by rewrite set_context_data_id.
  - destruct (deliver_cases s d) as ([j Hc] & _).
    destruct (IH (deliver s d)) as [j' Hc'].
    exists j'. by rewrite Hc', Hc.
Qed.

End Handler.

(** ** The event filter, exactly *)

Section FilterExactly.

Context `{Collaborators}.

Lemma prefix_app a b : String.prefix a (a ++ b) = true.
Proof.
  induction a as [|c a IH]; [by destruct b|].
  change (String c a ++ b) with (String c (a ++ b)).
  cbn [String.prefix]. by destruct (Ascii.ascii_dec c c).
Qed.

Lemma prefix_inv a : ∀ s, String.prefix a s = true → ∃ rest, s = a ++ rest.
Proof.
  induction a as [|c a IH]; intros s Hp.
  - by exists s.
  - destruct s as [|c' s]; [done|]. cbn [String.prefix] in Hp.
    destruct (Ascii.ascii_dec c c') as [<-|]; [|done].
    destruct (IH s Hp) as [rest ->]. by exists rest.
Qed.

Lemma startswith_spec s pre :
  startswith s pre = true ↔ ∃ rest, s = pre ++ rest.
Proof.
  unfold startswith. split; [apply prefix_inv|].
  intros [rest ->]. apply prefix_app.
Qed.

Lemma is_configured_spec o p :
  is_configured o p = true ↔ ∃ f, o = Some f ∧ f ≠ "" ∧ p = abspath f.
Proof.
  unfold is_configured, truthy. destruct o as [f|].
  - rewrite andb_true_iff, negb_true_iff. split.
    + intros [Hne Heq]. exists f.
      by apply String.eqb_neq in Hne; apply String.eqb_eq in Heq.
    + intros (f' & [= <-] & Hne & ->). split.
      * by apply String.eqb_neq.
      * apply String.eqb_refl.
  - split; [done | by intros (f & ? & _)].
Qed.

(** X4.  The filter of [on_modified], exactly.  An event is processed
    further if and only if it is a file event whose path is the absolute
    template path, the absolute context path, or any string that begins
    with the absolute path of the template directory; the order of the
    three tests plays no part.  Every other event returns with the heap
    untouched. *)
Theorem filter_exactly (ev : event) (s : Sys) :
  let c := config s in
  let p := src_path ev in
  (relevant c ev = true ↔
   is_directory ev = false ∧
   ((∃ f, template_file c = Some f ∧ f ≠ "" ∧ p = abspath f) ∨
    (∃ f, context_file c = Some f ∧ f ≠ "" ∧ p = abspath f) ∨
    (∃ d rest, template_dir c = Some d ∧ d ≠ "" ∧ p = abspath d ++ rest)))
  ∧ (relevant c ev = false → on_modified ev s = (Ok tt, s)).
Proof.
  intros c p. split; [|apply on_modified_irrelevant].
  rewrite relevant_spec, should_render_spec, !is_configured_spec.
  fold p. split.
  - intros [Hd [Ht | [Hc | (d & Htd & Hne & Hs)]]]; split; auto.
    apply startswith_spec in Hs as [rest Hrest]. right. right. by exists d, rest.
  - intros [Hd [Ht | [Hc | (d & rest & Htd & Hne & Hp)]]]; split; auto.
    right. right. exists d. split_and!; [done | done |].
    apply startswith_spec. by exists rest.
Qed.

(** X5.  Every file nested under the template directory passes the
    filter, whatever the template and context paths are. *)
Theorem nested_files_are_relevant (c : WeeConfig) (d : string) (ev : event) :
  template_dir c = Some d →
  d ≠ "" →
  is_directory ev = false →
  nested_under (abspath d) (src_path ev) →
  relevant c ev = true.
Proof.
  intros Htd Hne Hdir [rest Hp].
  apply relevant_spec. split; [done|].
  apply should_render_spec. right. right. exists d. split_and!; [done | done |].
  apply startswith_spec. by exists ("/" ++ rest).
Qed.

End FilterExactly.

(** ** More on the template cache *)

Section CacheIntegrity.

Context `{Collaborators}.

(** Every way through the reload path. *)
Lemma load_and_render_cases env name key context s :
  load_and_render env name key context s =
    match find_template (fs (world s)) env name with
    | None => (Raise TemplateNotFound, asked name s)
    | Some t =>
        match jinja_render env (fs (world s)) t context with
        | None => (Raise TemplateError, asked name s)
        | Some html =>
            match mtime_at (world s) key with
            | None => (Raise OSError, asked name s)
            | Some cur =>
                (Ok html,
                 with_renderer
                   (mkRenderer (_env_cache (renderer s))
                      (<[key := (t, cur)]> (_template_cache (renderer s))))
                   (asked name s))
            end
        end
    end.
Proof.
  unfold load_and_render, get_template, template_render, getmtime,
    bind, emit, modify, gets, ret, raise. simpl.
  destruct (find_template (fs (world s)) env name) as [t|]; simpl; [|done].
  destruct (jinja_render env (fs (world s)) t context) as [html|]; simpl;
    [|done].
  unfold mtime_at. simpl.
  by destruct (fs (world s) !! abspath key).
Qed.

Lemma render_template_none context s :
  render_template None context s = (Raise TypeError, with_env s).
Proof.
  unfold render_template, bind. by rewrite get_environment_eq.
Qed.

Lemma render_template_frame (path : option string)
    (context : json) (s : Sys) :
  let out := render_template path context s in
  (∀ e, fst out = Raise e →
        _template_cache (renderer (snd out)) = _template_cache (renderer s)) ∧
  (∀ k, (∀ p, path = Some p → k ≠ abspath p) →
        _template_cache (renderer (snd out)) !! k =
        _template_cache (renderer s) !! k) ∧
  fs (world (snd out)) = fs (world s) ∧
  config (snd out) = config s ∧
  watcher (snd out) = watcher s.
Proof.
  intros out. subst out. destruct path as [p|].
  - rewrite render_template_unfold.
    assert (Hload :
      let out := load_and_render (current_env s) (basename p) (abspath p)
                   context (with_env s) in
      (∀ e, fst out = Raise e →
            _template_cache (renderer (snd out)) = _template_cache (renderer s)) ∧
      (∀ k, (∀ p', Some p = Some p' → k ≠ abspath p') →
            _template_cache (renderer (snd out)) !! k =
            _template_cache (renderer s) !! k) ∧
      fs (world (snd out)) = fs (world s) ∧
      config (snd out) = config s ∧
      watcher (snd out) = watcher s).
    { cbv zeta. rewrite load_and_render_cases.
      change (world (with_env s)) with (world s).
      destruct (find_template _ _ _) as [t|]; [|done].
      destruct (jinja_render _ _ t context) as [html|]; [|done].
      destruct (mtime_at (world s) (abspath p)) as [cur|]; [|done].
      simpl. split_and!; try done.
      intros k Hk. apply lookup_insert_ne. intros E. by apply (Hk p). }
    destruct (_template_cache (renderer s) !! abspath p) as [[t cached]|];
      [|exact Hload].
    destruct (mtime_at (world s) (abspath p)) as [cur|]; [|done].
    destruct (cur <=? cached); [|exact Hload].
    by rewrite template_render_eq.
  - by rewrite render_template_none.
Qed.


(** X6.  [render_template] keeps the cache sound under failure and never
    touches anything but its own entry: when the call raises, the cache is
    exactly as before (a stale entry stays, nothing half-loaded is stored);
    entries under other keys are never changed; the disk, the configuration
    and the watcher are never changed. *)
Theorem render_template_cache_integrity (path : option string)
    (context : json) (s : Sys) :
  let out := render_template path context s in
  (∀ e, fst out = Raise e →
        _template_cache (renderer (snd out)) = _template_cache (renderer s)) ∧
  (∀ k, (∀ p, path = Some p → k ≠ abspath p) →
        _template_cache (renderer (snd out)) !! k =
        _template_cache (renderer s) !! k) ∧
  fs (world (snd out)) = fs (world s) ∧
  config (snd out) = config s ∧
  watcher (snd out) = watcher s.
Proof. apply render_template_frame. Qed.

(** X7.  A cached template whose file has since been deleted is neither
    served from the cache nor looked up again: the call raises [OSError]
    from [getmtime] without asking the loader, and the entry stays. *)
Theorem render_template_deleted_file (path : string) (context : json)
    (s : Sys) (t : Template) (cached : Z) :
  _template_cache (renderer s) !! abspath path = Some (t, cached) →
  mtime_at (world s) (abspath path) = None →
  let out := render_template (Some path) context s in
  fst out = Raise OSError ∧
  loads (snd out) = loads s ∧
  _template_cache (renderer (snd out)) !! abspath path = Some (t, cached).
Proof.
  intros Hc Hm out. subst out. rewrite render_template_unfold, Hc, Hm. done.
Qed.

Lemma truthy_some d : d ≠ "" → truthy (Some d) = true.
Proof. intros Hne. simpl. by apply negb_true_iff, String.eqb_neq. Qed.

Lemma search_path_head c d :
  template_dir c = Some d → d ≠ "" → head (search_path c) = Some d.
Proof.
  intros Hd Hne. unfold search_path. rewrite Hd, (truthy_some d Hne).
  destruct (template_file c) as [tf|]; [|done].
  destruct (truthy (Some tf)); [|done]. by case_bool_decide.
Qed.

Ltac list_mem :=
  simpl;
  rewrite ?not_elem_of_cons, ?elem_of_cons, ?list_elem_of_singleton,
    ?elem_of_nil in *;
  intuition congruence.

(** X8.  The search path built by [_get_environment] is never empty and
    has no duplicates; a configured template directory comes first, and the
    directory of a configured template file is always on it. *)
Theorem search_path_shape (c : WeeConfig) :
  search_path c ≠ [] ∧
  NoDup (search_path c) ∧
  (∀ d, template_dir c = Some d → d ≠ "" → head (search_path c) = Some d) ∧
  (∀ tf, template_file c = Some tf → tf ≠ "" →
         dirname (abspath tf) ∈ search_path c) ∧
  (truthy (template_dir c) = false → truthy (template_file c) = false →
   search_path c = ["."]).
Proof.
  unfold search_path.
  destruct (template_dir c) as [d|];
    [destruct (String.eqb_spec d "") as [->|Hd];
     [|rewrite (truthy_some d Hd)]|];
  (destruct (template_file c) as [tf|];
    [destruct (String.eqb_spec tf "") as [->|Htf];
     [|rewrite (truthy_some tf Htf)]|]);
  cbn [truthy String.eqb negb];
  try case_bool_decide;
  (split_and!;
   [ done
   | repeat (apply NoDup_cons; split; [list_mem|]); apply NoDup_nil_2
   | intros ? ? ?; by simplify_eq
   | intros ? ? ?; simplify_eq; list_mem
   | intros ? ?; by simplify_eq ]).
Qed.

(** X9.  A file in the template directory shadows the template named on
    the command line.  On first use, when the template directory holds a
    file with the template's base name, that file is what is loaded and
    rendered, and it is cached under the command-line template's path with
    the command-line template's modification time. *)
Theorem template_dir_shadows_template (path d : string) (context : json)
    (s : Sys) (data html : string) (t cur : Z) :
  template_dir (config s) = Some d →
  d ≠ "" →
  _env_cache (renderer s) = None →
  _template_cache (renderer s) !! abspath path = None →
  fs (world s) !! abspath (path_join d (basename path)) = Some (File data t) →
  jinja_render (search_path (config s)) (fs (world s)) data context
    = Some html →
  mtime_at (world s) (abspath path) = Some cur →
  let out := render_template (Some path) context s in
  fst out = Ok html ∧
  _template_cache (renderer (snd out)) !! abspath path = Some (data, cur).
Proof.
  intros Hd Hne Henv Hc Hfs Hr Hm out. subst out.
  rewrite render_template_unfold, Hc.
  assert (Hcur : current_env s = search_path (config s)).
  { unfold current_env. by rewrite Henv. }
  rewrite Hcur, load_and_render_cases.
  change (world (with_env s)) with (world s).
  assert (Hfind : find_template (fs (world s)) (search_path (config s))
                    (basename path) = Some data).
  { pose proof (search_path_head (config s) d Hd Hne) as Hhead.
    destruct (search_path (config s)) as [|d' dirs]; [done|].
    simpl in Hhead. simplify_eq. simpl. by rewrite Hfs. }
  rewrite Hfind, Hr, Hm. simpl. split; [done|]. apply lookup_insert_eq.
Qed.

End CacheIntegrity.

(** ** The render pipeline, stage by stage *)

Section Stages.

Context `{Collaborators}.

Lemma load_context_cases (s : Sys) :
  ∃ j, load_context s = (Ok j, s) ∨ load_context s = (Ok j, warned s).
Proof.
  unfold load_context, bind, gets, try_except, read_file, json_load. simpl.
  destruct (context_file (config s)) as [cf|]; [|eauto].
  destruct (truthy (Some cf) && path_exists (world s) cf); [|eauto].
  destruct (fs (world s) !! abspath cf) as [[data t|t]|]; eauto.
  destruct (json_loads data); eauto.
Qed.

(** X10.  [load_context] never raises, whatever the configuration and the
    disk, and changes nothing in the heap except that it may print its
    warning; without a configured context file (none, or the empty string)
    it returns the default payload without printing. *)
Theorem load_context_is_total (s : Sys) :
  (∃ j, load_context s = (Ok j, s) ∨ load_context s = (Ok j, warned s)) ∧
  (truthy (context_file (config s)) = false →
   load_context s = (Ok (default_context (today (world s))), s)).
Proof.
  split; [apply load_context_cases | apply load_context_unconfigured].
Qed.

Lemma popen_eq argv s :
  popen argv s =
    if popen_ok (world s)
    then (Ok tt, with_world (set_log (log (world s) ++ [Popen argv]) (world s)) s)
    else (Raise OSError, s).
Proof. unfold popen, bind, gets. simpl. by destruct (popen_ok (world s)). Qed.

(** What [open_pdf] does, in one equation. *)
Lemma open_pdf_eq pdf_path s :
  open_pdf pdf_path s =
    (Ok tt,
     with_world
       (set_log
          (log (world s) ++
             if popen_ok (world s)
             then [Popen (viewer_argv (platform_system (world s)) pdf_path);
                   PrintOpened]
             else [PrintCouldNotOpen])
          (world s)) s).
Proof.
  unfold open_pdf, viewer_argv, try_except.
  unfold bind at 1. unfold gets at 1. cbv beta iota.
  unfold bind.
  destruct (String.eqb (platform_system (world s)) "Darwin");
    [|destruct (String.eqb (platform_system (world s)) "Windows")];
    rewrite popen_eq; destruct (popen_ok (world s)); simpl;
    by rewrite <- ?app_assoc.
Qed.

(** The pipeline is its markup stage followed by its output stage. *)
Lemma pipeline_stages ao s :
  render_and_generate_pdf ao s =
    bind markup_stage (λ html, output_stage (config s) html ao) s.
Proof.
  unfold render_and_generate_pdf, markup_stage, output_stage.
  unfold bind, gets, emit, modify. simpl.
  destruct (load_context _) as [[context|e] s1]; [|done].
  by destruct (render_template _ _ _) as [[html|e] s2].
Qed.

Lemma markup_stage_eq s :
  markup_stage s =
    let s1 := with_world
                (set_log (log (world s) ++
                            [PrintRendering (template_file (config s))])
                   (world s)) s in
    match load_context s1 with
    | (Ok context, s2) => render_template (template_file (config s)) context s2
    | (Raise e, s2) => (Raise e, s2)
    end.
Proof. reflexivity. Qed.

Lemma markup_stage_frame (ao : bool) (s : Sys) :
  let out := markup_stage s in
  fs (world (snd out)) = fs (world s) ∧
  config (snd out) = config s ∧
  watcher (snd out) = watcher s ∧
  (∀ e, fst out = Raise e →
        render_and_generate_pdf ao s = (Raise e, snd out)).
Proof.
  intros out. subst out. split_and!.
  1-3: rewrite markup_stage_eq; cbv zeta;
    match goal with |- context [load_context ?s1] =>
      destruct (load_context_cases s1) as [j [-> | ->]] end;
    match goal with |- context [render_template ?p ?j ?s2] =>
      destruct (render_template_frame p j s2)
        as (_ & _ & Hfs & Hc & Hw) end;
    try (rewrite Hfs); try (rewrite Hc); try (rewrite Hw); done.
  intros e He. rewrite pipeline_stages. unfold bind.
  destruct (markup_stage s) as [[html|e'] s2]; simpl in *; by simplify_eq.
Qed.

(** X11.  The markup stage only reads: it leaves the disk, the
    configuration and the watcher as they are.  So when the template cannot
    be loaded or rendered, the pipeline raises that error before any output
    file is touched: the previous markup and PDF stay on disk. *)
Theorem markup_stage_only_reads (ao : bool) (s : Sys) :
  let out := markup_stage s in
  fs (world (snd out)) = fs (world s) ∧
  config (snd out) = config s ∧
  watcher (snd out) = watcher s ∧
  (∀ e, fst out = Raise e →
        render_and_generate_pdf ao s = (Raise e, snd out)).
Proof. apply markup_stage_frame. Qed.


(** Opening the viewer comes last and is the only difference between the
    two values of [auto_open]. *)
Lemma output_stage_viewer c html ao s :
  output_stage c html ao s =
    match output_stage c html false s with
    | (Ok _, s') => if ao then open_pdf (output_pdf c) s' else (Ok tt, s')
    | (Raise e, s') => (Raise e, s')
    end.
Proof.
  unfold output_stage, html_to_pdf, bind, emit, modify, ret, raise. simpl.
  destruct (write_file (html_output_path c) html _) as [[[]|e] s1]; [|done].
  destruct (weasyprint html) as [pdf|]; [|done]. simpl.
  destruct (write_file (output_pdf c) pdf _) as [[[]|e] s2]; [|done].
  simpl. by destruct ao.
Qed.

(** X12.  Opening the viewer is best effort.  With [auto_open] the pipeline
    returns what it returns without, and leaves the same heap, except that
    after a successful run it either spawns the platform's open command
    and reports it, or, when the spawn fails, prints a warning; a failing
    viewer never fails the pipeline. *)
Theorem viewer_launch_is_best_effort (s : Sys) :
  let out := render_and_generate_pdf false s in
  render_and_generate_pdf true s =
    match fst out with
    | Ok _ =>
        (Ok tt,
         with_world
           (set_log
              (log (world (snd out)) ++
                 if popen_ok (world (snd out))
                 then [Popen (viewer_argv (platform_system (world (snd out)))
                                (output_pdf (config s)));
                       PrintOpened]
                 else [PrintCouldNotOpen])
              (world (snd out))) (snd out))
    | Raise e => (Raise e, snd out)
    end.
Proof.
  intros out. subst out. rewrite !pipeline_stages. unfold bind.
  destruct (markup_stage s) as [[html|e] s2]; [|done].
  rewrite (output_stage_viewer (config s) html true).
  destruct (output_stage (config s) html false s2) as [[[]|e] s3]; [|done].
  simpl. apply open_pdf_eq.
Qed.







End Stages.

(** ** The cache across runs of the pipeline *)

Section AcrossRuns.

Context `{Collaborators}.

(** After a successful call the cache holds a handle that the disk does not
    outdate. *)
Lemma render_template_fresh path context s html :
  fst (render_template (Some path) context s) = Ok html →
  cache_fresh (snd (render_template (Some path) context s)) (abspath path).
Proof.
  rewrite render_template_unfold.
  assert (Hload :
    fst (load_and_render (current_env s) (basename path) (abspath path)
           context (with_env s)) = Ok html →
    cache_fresh (snd (load_and_render (current_env s) (basename path)
                        (abspath path) context (with_env s)))
                (abspath path)).
  { rewrite load_and_render_cases.
    change (world (with_env s)) with (world s).
    destruct (find_template _ _ _) as [t|]; [|done].
    destruct (jinja_render _ _ t context) as [html'|]; [|done].
    destruct (mtime_at (world s) (abspath path)) as [cur|] eqn:Hm; [|done].
    intros _. exists t, cur, cur. simpl. split_and!; [|done|lia].
    apply lookup_insert_eq. }
  destruct (_template_cache (renderer s) !! abspath path)
    as [[t cached]|] eqn:Hc; [|exact Hload].
  destruct (mtime_at (world s) (abspath path)) as [cur|] eqn:Hm; [|done].
  destruct (cur <=? cached) eqn:Hle; [|exact Hload].
  rewrite template_render_eq. intros _.
  exists t, cached, cur. simpl. split_and!; [done | done |].
  by apply Z.leb_le.
Qed.

(** With a handle that the disk does not outdate, the loader is not asked. *)
Lemma render_template_fresh_no_load path context s :
  cache_fresh s (abspath path) →
  loads (snd (render_template (Some path) context s)) = loads s.
Proof.
  intros (t & cached & cur & Hc & Hm & Hle).
  rewrite render_template_unfold, Hc, Hm, (proj2 (Z.leb_le _ _) Hle).
  by rewrite template_render_eq.
Qed.

Lemma loads_emit o s :
  is_load o = false →
  loads (with_world (set_log (log (world s) ++ [o]) (world s)) s) = loads s.
Proof.
  intros Ho. unfold loads. simpl. rewrite count_app. simpl. rewrite Ho. lia.
Qed.

Lemma write_file_cases p data s :
  write_file p data s = (Raise OSError, s) ∨
  write_file p data s =
    (Ok tt,
     with_world
       (set_fs (<[abspath p := File data (clock (world s))]> (fs (world s)))
          (world s)) s).
Proof.
  unfold write_file.
  destruct (fs (world s) !! abspath p) as [[d t|t]|]; auto.
Qed.

(** The output stage keeps the renderer and the configuration, asks the
    loader nothing, and touches the disk only at the two output paths. *)
Lemma output_stage_frame c html ao s :
  let s' := snd (output_stage c html ao s) in
  renderer s' = renderer s ∧
  config s' = config s ∧
  loads s' = loads s ∧
  (∀ k, k ≠ abspath (html_output_path c) → k ≠ abspath (output_pdf c) →
        fs (world s') !! k = fs (world s) !! k).
Proof.
  cbv zeta. rewrite output_stage_viewer.
  assert (Hfalse :
    let s' := snd (output_stage c html false s) in
    renderer s' = renderer s ∧
    config s' = config s ∧
    loads s' = loads s ∧
    (∀ k, k ≠ abspath (html_output_path c) → k ≠ abspath (output_pdf c) →
          fs (world s') !! k = fs (world s) !! k)).
  { unfold output_stage, html_to_pdf, bind, emit, modify, ret, raise. simpl.
    destruct (write_file_cases (html_output_path c) html
                (with_world
                   (set_log (log (world s) ++ [PrintTemplateRendered])
                      (world s)) s)) as [-> | ->]; simpl.
    { split_and!; try done. by apply loads_emit. }
    destruct (weasyprint html) as [pdf|]; simpl.
    2:{ split_and!; try done.
        - unfold loads. simpl. rewrite !count_app. simpl. lia.
        - intros k Hk _. by rewrite lookup_insert_ne. }
    match goal with |- context [write_file ?p ?d ?s0] =>
      destruct (write_file_cases p d s0) as [-> | ->] end; simpl.
    - split_and!; try done.
      + unfold loads. simpl. rewrite !count_app. simpl. lia.
      + intros k Hk _. by rewrite lookup_insert_ne.
    - split_and!; try done.
      + unfold loads. simpl. rewrite !count_app. simpl. lia.
      + intros k Hk1 Hk2. by rewrite !lookup_insert_ne. }
  cbv zeta in Hfalse.
  destruct (output_stage c html false s) as [[[]|e] s1]; [|exact Hfalse].
  destruct ao; [|exact Hfalse].
  rewrite open_pdf_eq. simpl in *.
  destruct Hfalse as (Hr & Hc & Hl & Hfs). split_and!; try done.
  rewrite <- Hl. unfold loads. simpl. rewrite count_app.
  destruct (popen_ok (world s1)); simpl; lia.
Qed.

(** X15.  The cache works across runs.  After a run of the pipeline that
    returned normally, any later run in which the renderer and the
    configuration are the same and the template file has the same
    modification time does not ask the loader again, provided the two
    output paths are not the template file itself; edits to other files
    and the passing of time make no difference. *)
Theorem second_render_reuses_template (ao ao' : bool) (s s' : Sys)
    (path : string) :
  template_file (config s) = Some path →
  fst (render_and_generate_pdf ao s) = Ok tt →
  abspath (html_output_path (config s)) ≠ abspath (abspath path) →
  abspath (output_pdf (config s)) ≠ abspath (abspath path) →
  let s1 := snd (render_and_generate_pdf ao s) in
  renderer s' = renderer s1 →
  config s' = config s1 →
  mtime_at (world s') (abspath path) = mtime_at (world s1) (abspath path) →
  loads (snd (render_and_generate_pdf ao' s')) = loads s'.
Proof.
  intros Htf Hok Hh Hp s1 Hr Hc Hm.
  (* the first run *)
  assert (Hfresh1 : cache_fresh s1 (abspath path) ∧ config s1 = config s).
  { subst s1. revert Hok. rewrite pipeline_stages. unfold bind.
    destruct (markup_stage s) as [[html|e] s2] eqn:Hms; [|done]. intros Hok.
    pose proof (markup_stage_eq s) as E. rewrite Hms in E. cbv zeta in E.
    rewrite Htf in E.
    assert (Hf2 : cache_fresh s2 (abspath path) ∧ config s2 = config s).
    { match type of E with context [load_context ?s0] =>
        destruct (load_context_cases s0) as [j [Hl | Hl]]; rewrite Hl in E end;
      match type of E with _ = render_template ?p ?j ?sx =>
        pose proof (render_template_fresh path j sx html) as Hf;
        pose proof (render_template_frame p j sx) as (_ & _ & _ & Hcfg & _);
        rewrite <- E in Hf, Hcfg; simpl in Hf, Hcfg; split; [by apply Hf | done]
      end. }
    destruct Hf2 as [(t & cached & cur & Hc2 & Hm2 & Hle) Hcfg2].
    destruct (output_stage_frame (config s) html ao s2) as (Hr3 & Hc3 & _ & Hfs3).
    split; [|by rewrite Hc3].
    exists t, cached, cur. split_and!; [by rewrite Hr3 | | done].
    unfold mtime_at in *. by rewrite Hfs3. }
  destruct Hfresh1 as [(t & cached & cur & Hc1 & Hm1 & Hle) Hcfg1].
  (* the later run *)
  assert (Hfresh' : ∀ l,
    cache_fresh (with_world (set_log l (world s')) s') (abspath path)).
  { intros l. exists t, cached, cur. simpl. split_and!; [| |done].
    - by rewrite Hr.
    - rewrite <- Hm1, <- Hm. done. }
  rewrite pipeline_stages. unfold bind.
  assert (Hms : loads (snd (markup_stage s')) = loads s').
  { rewrite markup_stage_eq. cbv zeta. rewrite Hc, Hcfg1, Htf.
    match goal with |- context [load_context ?s0] =>
      destruct (load_context_cases s0) as [j [-> | ->]] end.
    - rewrite render_template_fresh_no_load by apply Hfresh'.
      by apply loads_emit.
    - unfold warned. simpl.
      rewrite render_template_fresh_no_load by apply Hfresh'.
      unfold loads. simpl. rewrite !count_app. simpl. lia. }
  destruct (markup_stage s') as [[html|e] s2']; [|done].
  destruct (output_stage_frame (config s') html ao' s2') as (_ & _ & Hl & _).
  simpl in *. by rewrite Hl.
Qed.

End AcrossRuns.

(** ** The markup path *)

Section MarkupPath.

Context `{Collaborators}.

Lemma dot_free_tail c a :
  (∀ i, String.get i (String c a) ≠ Some (Ascii.ascii_of_nat 46)) →
  c ≠ Ascii.ascii_of_nat 46 ∧
  (∀ i, String.get i a ≠ Some (Ascii.ascii_of_nat 46)).
Proof.
  intros Hdot. split.
  - intros ->. by apply (Hdot O).
  - intros i. apply (Hdot (S i)).
Qed.

Lemma replace_dot_free a :
  (∀ i, String.get i a ≠ Some (Ascii.ascii_of_nat 46)) →
  replace_from ".pdf" ".html" O a = a.
Proof.
  induction a as [|c a IH]; intros Hdot; [done|].
  apply dot_free_tail in Hdot as [Hc Hdot]. cbn [replace_from].
  rewrite prefix_cons_ne by (intros E; apply Hc; by rewrite <- E).
  f_equal. by apply IH.
Qed.

Lemma replace_after_dot_free a b :
  (∀ i, String.get i a ≠ Some (Ascii.ascii_of_nat 46)) →
  replace_from ".pdf" ".html" O (a ++ ".pdf" ++ b) =
  a ++ ".html" ++ replace_from ".pdf" ".html" O b.
Proof.
  induction a as [|c a IH]; intros Hdot.
  - change ("" ++ ".pdf" ++ b)
      with (String (Ascii.ascii_of_nat 46) ("pdf" ++ b)).
    cbn [replace_from].
    assert (Hp : String.prefix ".pdf"
                   (String (Ascii.ascii_of_nat 46) ("pdf" ++ b)) = true)
      by exact (prefix_app ".pdf" b).
    rewrite Hp. reflexivity.
  - apply dot_free_tail in Hdot as [Hc Hdot].
    change (String c a ++ ".pdf" ++ b) with (String c (a ++ ".pdf" ++ b)).
    cbn [replace_from].
    rewrite prefix_cons_ne by (intros E; apply Hc; by rewrite <- E).
    change (String c a ++ ".html" ++ replace_from ".pdf" ".html" 0 b)
      with (String c (a ++ ".html" ++ replace_from ".pdf" ".html" 0 b)).
    f_equal. by apply IH.
Qed.

(** X16.  Where the markup goes.  [str.replace] rewrites every [.pdf] in
    the output path, wherever it stands.  For an output path without any
    dot the markup path is the output path itself; for [stem.pdf] with a
    dot-free stem it is [stem.html]; and in general the first [.pdf] is
    rewritten even when it is not the extension, and the rewriting goes on
    behind it. *)
Theorem html_output_path_cases (c : WeeConfig) :
  ((∀ i, String.get i (output_pdf c) ≠ Some (Ascii.ascii_of_nat 46)) →
   html_output_path c = output_pdf c) ∧
  (∀ stem,
     (∀ i, String.get i stem ≠ Some (Ascii.ascii_of_nat 46)) →
     output_pdf c = stem ++ ".pdf" →
     html_output_path c = stem ++ ".html") ∧
  (∀ a b,
     (∀ i, String.get i a ≠ Some (Ascii.ascii_of_nat 46)) →
     output_pdf c = a ++ ".pdf" ++ b →
     html_output_path c = a ++ ".html" ++ str_replace ".pdf" ".html" b).
Proof.
  unfold html_output_path, str_replace. split_and!.
  - apply replace_dot_free.
  - intros stem Hdot ->.
    change (stem ++ ".pdf") with (stem ++ ".pdf" ++ "").
    by rewrite replace_after_dot_free.
  - intros a b Hdot ->. by apply replace_after_dot_free.
Qed.


End MarkupPath.

(** ** The watch session and the start of [main] *)

Section Startup.

Context `{Collaborators}.

Lemma size_add_one (X : gset string) x : (size (X ∪ {[x]}) ≤ S (size X))%nat.
Proof.
  rewrite size_union_alt.
  assert (size (({[x]} : gset string) ∖ X) ≤ size ({[x]} : gset string))%nat
    by (apply subseteq_size; set_solver).
  rewrite size_singleton in *. lia.
Qed.

(** X18.  The watch session.  [start_watching] schedules at most three
    directories, each once.  They cover the filter of [on_modified]: the
    directory of the template file, the directory of the context file and
    the template directory are all watched, so every path that passes the
    exact-path tests lies in a watched directory.  When the template
    directory is the directory of the template and no context file is
    configured, a single directory is scheduled. *)
Theorem watch_paths_cover_the_filter (c : WeeConfig) :
  (size (watch_paths c) ≤ 3)%nat ∧
  (∀ p, is_configured (template_file c) p = true →
        dirname p ∈ watch_paths c) ∧
  (∀ p, is_configured (context_file c) p = true →
        dirname p ∈ watch_paths c) ∧
  (∀ d, template_dir c = Some d → d ≠ "" → abspath d ∈ watch_paths c) ∧
  (∀ tf d, template_file c = Some tf → tf ≠ "" →
           template_dir c = Some d → d ≠ "" →
           context_file c = None →
           abspath d = dirname (abspath tf) →
           watch_paths c = {[abspath d]}).
Proof.
  unfold watch_paths. split_and!.
  - repeat case_match;
      repeat first
        [ rewrite size_empty; lia
        | eapply Nat.le_trans; [apply size_add_one|]; apply le_n_S ].
  - intros p (f & Hf & Hne & ->)%is_configured_spec.
    rewrite Hf, (truthy_some f Hne). repeat case_match; set_solver.
  - intros p (f & Hf & Hne & ->)%is_configured_spec.
    rewrite Hf, (truthy_some f Hne). repeat case_match; set_solver.
  - intros d Hd Hne. rewrite Hd, (truthy_some d Hne).
    repeat case_match; set_solver.
  - intros tf d Htf Hne Hd Hne' Hcf E.
    rewrite Htf, Hd, Hcf, (truthy_some tf Hne), (truthy_some d Hne'), E.
    set_solver.
Qed.


End Startup.

(** ** The in-memory payload *)

Section Payload.

Context `{Collaborators}.

Lemma pipeline_config ao s :
  config (snd (render_and_generate_pdf ao s)) = config s.
Proof.
  destruct (markup_stage_frame ao s) as (_ & Hc & _).
  rewrite pipeline_stages. unfold bind.
  destruct (markup_stage s) as [[html|e] s2]; [|done].
  destruct (output_stage_frame (config s) html ao s2) as (_ & Hc' & _).
  simpl in *. by rewrite Hc'.
Qed.

Lemma trigger_render_other_file changed s :
  is_configured (context_file (config s)) changed = false →
  config (snd (_trigger_render changed s)) = config s.
Proof.
  intros Hn. unfold _trigger_render.
  change (bind (emit (PrintChangeDetected (basename changed))) ?k s)
    with (k tt (with_world
                  (set_log (log (world s) ++
                              [PrintChangeDetected (basename changed)])
                     (world s)) s)).
  cbv beta. set (s1 := with_world _ s).
  unfold bind at 1. unfold gets at 1. cbv beta iota.
  change (config s1) with (config s). rewrite Hn.
  assert (Hp : (match context_file (config s) with
                | Some _ => ret true
                | None => ret true
                end) = @ret bool true)
    by (by destruct (context_file (config s))).
  rewrite Hp. unfold bind, ret, try_except.
  pose proof (pipeline_config (auto_open (config s)) s1) as Hc.
  destruct (render_and_generate_pdf (auto_open (config s)) s1)
    as [[[]|e] s2]; simpl in *; done.
Qed.

(** X20.  The in-memory payload follows the context file.  A delivery
    whose path is not the context file leaves the whole configuration,
    payload included, as it was.  A dispatched delivery for the context
    file whose text parses replaces the payload by the parsed value and
    changes nothing else in the configuration. *)
Theorem payload_follows_context_file (s : Sys) (d : delivery) :
  (is_configured (context_file (config s)) (src_path (d_event d)) = false →
   config (deliver s d) = config s) ∧
  (∀ cf data t j,
     context_file (config s) = Some cf →
     cf ≠ "" →
     is_directory (d_event d) = false →
     src_path (d_event d) = abspath cf →
     debounce_ms (config s) ≤ d_time d - last_render_time (watcher s) →
     fs (world (arrive d s)) !! abspath cf = Some (File data t) →
     json_loads data = Some j →
     config (deliver s d) = set_context_data j (config s)).
Proof.
  split.
  - intros Hn.
    destruct (relevant (config s) (d_event d)) eqn:Hr.
    + destruct (Z.lt_ge_cases (d_time d - last_render_time (watcher s))
                  (debounce_ms (config s))) as [Hlt | Hge].
      * by rewrite deliver_coalesced.
      * unfold deliver. rewrite on_modified_dispatched by done.
        by rewrite trigger_render_other_file.
    + by rewrite deliver_irrelevant.
  - intros cf data t j Hcf Hne Hdir Hpath Hge Hfs Hj.
    assert (Hrel : relevant (config s) (d_event d) = true).
    { apply relevant_spec. split; [done|]. unfold should_render.
      rewrite Hpath, Hcf, (is_configured_here cf Hne).
      by destruct (is_configured (template_file (config s)) (abspath cf)). }
    unfold deliver. rewrite on_modified_dispatched by done.
    rewrite Hpath, trigger_render_context_file by done.
    unfold bind.
    rewrite (reload_context_succeeds cf _ data t j) by done.
    unfold try_except.
    match goal with |- context [render_and_generate_pdf ?ao ?s1] =>
      pose proof (pipeline_config ao s1) as Hc;
      destruct (render_and_generate_pdf ao s1) as [[[]|e] s2] end;
      simpl in *; by rewrite Hc.
Qed.

End Payload.

(** * The further properties on the demo site *)

Section Tours.

Import Demo Tour.

#[local] Existing Instance posix.

(** A string has no dot when none of its characters is one. *)
Lemma dot_free_check s :
  forallb (λ c, negb (Ascii.eqb c (Ascii.ascii_of_nat 46)))
          (String.list_ascii_of_string s) = true →
  ∀ i, String.get i s ≠ Some (Ascii.ascii_of_nat 46).
Proof.
  induction s as [|c s IH]; intros Hall i; [by destruct i|].
  simpl in Hall. apply andb_true_iff in Hall as [Hc Hall].
  destruct i as [|i]; simpl.
  - intros [= ->]. by rewrite Ascii.eqb_refl in Hc.
  - by apply IH.
Qed.

Lemma filter_exactly_witness :
  relevant (config start) (mkEvent false stray) = true ∧
  on_modified (mkEvent false "/srv/readme.txt") start = (Ok tt, start).
Proof.
  destruct (filter_exactly (mkEvent false stray) start) as [Hiff _].
  destruct (filter_exactly (mkEvent false "/srv/readme.txt") start)
    as [_ Hdrop].
  split.
  - apply Hiff. split; [reflexivity|]. right. right.
    exists tpl, "_old/notes.txt". split_and!; [reflexivity | discriminate |].
    reflexivity.
  - apply Hdrop. by vm_compute.
Defined.

Lemma nested_files_are_relevant_witness :
  relevant cfg (mkEvent false "/srv/tpl/base.html") = true.
Proof.
  apply (nested_files_are_relevant cfg tpl (mkEvent false "/srv/tpl/base.html"));
    [reflexivity | discriminate | reflexivity |].
  by exists "base.html".
Defined.

Lemma render_template_cache_integrity_witness :
  _template_cache (renderer (snd (render_template (Some "/srv/missing.html")
                                    (JObj []) cached)))
  = _template_cache (renderer cached).
Proof.
  destruct (render_template_cache_integrity (Some "/srv/missing.html")
              (JObj []) cached) as [Hfail _].
  apply (Hfail TemplateNotFound). by vm_compute.
Defined.

Lemma render_template_deleted_file_witness :
  fst (render_template (Some page) (JObj []) deleted) = Raise OSError ∧
  loads (snd (render_template (Some page) (JObj []) deleted)) = loads deleted.
Proof.
  destruct (render_template_deleted_file page (JObj []) deleted
              "<p>Old</p>" 100) as (H1 & H2 & _);
    [by vm_compute | by vm_compute |].
  split; [exact H1 | exact H2].
Defined.

Lemma search_path_shape_witness :
  head (search_path cfg) = Some tpl ∧ "/srv" ∈ search_path cfg.
Proof.
  destruct (search_path_shape cfg) as (_ & _ & Hhead & Hin & _).
  split.
  - apply Hhead; [reflexivity | discriminate].
  - apply (Hin page); [reflexivity | discriminate].
Defined.

Lemma template_dir_shadows_template_witness :
  fst (render_template (Some page) (JObj []) shadowed) = Ok "<p>Shadow</p>" ∧
  _template_cache (renderer (snd (render_template (Some page) (JObj [])
                                    shadowed))) !! page
  = Some ("<p>Shadow</p>", 100).
Proof.
  destruct (template_dir_shadows_template page tpl (JObj []) shadowed
              "<p>Shadow</p>" "<p>Shadow</p>" 50 100) as [H1 H2];
    [reflexivity | discriminate | reflexivity | by vm_compute | by vm_compute
    | reflexivity | by vm_compute |].
  split; [exact H1 | exact H2].
Defined.

Lemma load_context_is_total_witness :
  load_context plain = (Ok (default_context "2026-01-01"), plain).
Proof.
  destruct (load_context_is_total plain) as [_ Hplain].
  apply Hplain. reflexivity.
Defined.

Lemma markup_stage_only_reads_witness :
  render_and_generate_pdf true bare = (Raise TemplateNotFound, snd (markup_stage bare)) ∧
  fs (world (snd (markup_stage bare))) = ∅.
Proof.
  destruct (markup_stage_only_reads true bare) as (Hfs & _ & _ & Hraise).
  split.
  - apply Hraise. by vm_compute.
  - exact Hfs.
Defined.



Lemma second_render_reuses_template_witness :
  let s1 := snd (render_and_generate_pdf false start) in
  let later := arrive (touch t0 data_json) s1 in
  loads s1 = 1%nat ∧
  loads (snd (render_and_generate_pdf false later)) = loads later.
Proof.
  intros s1 later. split; [by vm_compute|].
  apply (second_render_reuses_template false false start later page);
    by vm_compute.
Defined.

Lemma html_output_path_cases_witness :
  html_output_path (config dotless) = "/srv/report" ∧
  html_output_path cfg = "/srv/out.html".
Proof.
  destruct (html_output_path_cases (config dotless)) as (Hsame & _).
  destruct (html_output_path_cases cfg) as (_ & Hext & _).
  split.
  - apply Hsame. by apply dot_free_check.
  - apply (Hext "/srv/out"); [by apply dot_free_check | reflexivity].
Defined.


Lemma watch_paths_cover_the_filter_witness :
  "/srv" ∈ watch_paths cfg ∧ "/srv/tpl" ∈ watch_paths cfg ∧
  (size (watch_paths cfg) ≤ 3)%nat.
Proof.
  destruct (watch_paths_cover_the_filter cfg) as (Hsize & Htf & _ & Htd & _).
  split_and!.
  - apply (Htf page). reflexivity.
  - apply (Htd tpl); [reflexivity | discriminate].
  - exact Hsize.
Defined.


Lemma payload_follows_context_file_witness :
  config (deliver start (touch t0 page)) = cfg ∧
  config (deliver start (null_context t0)) = set_context_data JNull cfg.
Proof.
  destruct (payload_follows_context_file start (touch t0 page)) as [Hother _].
  destruct (payload_follows_context_file start (null_context t0))
    as [_ Hreload].
  split.
  - apply Hother. by vm_compute.
  - apply (Hreload data_json "null" t0 JNull);
      [reflexivity | discriminate | reflexivity | reflexivity
      | by vm_compute | by vm_compute | reflexivity].
Defined.

End Tours.
